(** * FinScraps: the ANBIMA business-day calendar and the IRTS scrape manager

    A shallow embedding of [src/utils.py] (class [BRCal]),
    [src/scrapers/Scrapers.py] (class [AnbimaIRTSScraper]) and
    [src/managers/Managers.py] (class [AnbimaIRTSManager]), with the
    properties of the calendar and of the validate / merge workflow.

    What the embedding takes from outside the repository:
    - timestamps are instants without time zone and without [NaT]; the
      range of [pd.Timestamp] is checked where the code computes a date
      outside the span of its arguments ([previous_business_day]), and
      the arguments themselves are taken to be in range;
    - pandas and numpy calls ([CustomBusinessDay], [date_range], [concat],
      [drop_duplicates], [sort_values]) are modelled by what they compute
      on such values;
    - the clock is read as the same instant throughout one invocation, and
      reading and writing the Feather file does not fail;
    - the download and the XML parser of the scraper are collaborators
      passed in as functions. *)

From Stdlib Require Import ZArith Lia List Permutation Sorted Ascii.
From stdpp Require Import base tactics numbers option list gmap sets fin_sets strings sorting.

Local Open Scope Z_scope.

(** ** Timestamps

    A [pd.Timestamp] is an instant: a number of nanoseconds since
    1970-01-01T00:00 (a Thursday).  Comparison, equality and hashing of
    timestamps are those of the instant. *)

Abbreviation Timestamp := Z.

Definition ns_per_day : Z := 86400000000000.

(** The calendar day an instant falls on (days since 1970-01-01). *)
Definition day_number (t : Timestamp) : Z := t `div` ns_per_day.

(** [Timestamp.time()]: the part of the instant after midnight. *)
Definition time_of_day (t : Timestamp) : Z := t `mod` ns_per_day.

(** [datetime.combine(day, time)]. *)
Definition combine (k : Z) (tod : Z) : Timestamp := k * ns_per_day + tod.

(** [Timestamp.normalize()]: midnight of the same day. *)
Definition normalize (t : Timestamp) : Timestamp := combine (day_number t) 0.

(** Day of the week of a day number, Monday = 0 ... Sunday = 6. *)
Definition weekday_of_day (k : Z) : Z := (k + 3) `mod` 7.

(** [Timestamp.weekday()]. *)
Definition weekday (t : Timestamp) : Z := weekday_of_day (day_number t).

(** ** [pandas.tseries.offsets.CustomBusinessDay]

    The offset object holds its multiple [n] and a [numpy.busdaycalendar]:
    the week mask and the holidays truncated to whole days
    ([datetime64[D]]).  The source always builds it with the week mask
    ["Mon Tue Wed Thu Fri"]. *)

Record CustomBusinessDay := {
  n : Z;
  busdaycal_holidays : gset Z
}.

(** The week mask ["Mon Tue Wed Thu Fri"]. *)
Definition weekmask (wd : Z) : bool := wd <? 5.

(** [numpy.is_busday]. *)
Definition is_busday (o : CustomBusinessDay) (k : Z) : bool :=
  weekmask (weekday_of_day k) && bool_decide (k ∉ busdaycal_holidays o).

(** [offset.is_on_offset(t)]. *)
Definition is_on_offset (o : CustomBusinessDay) (t : Timestamp) : bool :=
  is_busday o (day_number t).

(** numpy rolls a date onto a valid day by scanning day by day, forwards
    ([dir = 1]) or backwards ([dir = -1]).  The scan is a loop without a
    bound in numpy; here it carries fuel, and [roll_forward_total] and
    [roll_backward_total] below show that [search_bound] is always enough. *)
Fixpoint roll (o : CustomBusinessDay) (dir : Z) (fuel : nat) (k : Z) : option Z :=
  match fuel with
  | O => None
  | S f => if is_busday o k then Some k else roll o dir f (k + dir)
  end.

Definition search_bound (o : CustomBusinessDay) : nat :=
  (7 * S (size (busdaycal_holidays o)))%nat.
Arguments search_bound : simpl never.

(** Move [count] valid days in direction [dir] from the day [k]. *)
Fixpoint step_busdays (o : CustomBusinessDay) (dir : Z) (count : nat) (k : Z)
  : option Z :=
  match count with
  | O => Some k
  | S c => k' ← roll o dir (search_bound o) (k + dir); step_busdays o dir c k'
  end.

Inductive Roll := RollForward | RollBackward.

Definition roll_dir (r : Roll) : Z :=
  match r with RollForward => 1 | RollBackward => -1 end.

(** [numpy.busday_offset(k, offsets, roll, busdaycal)]: first roll [k] onto
    a valid day, then move [offsets] valid days (backwards when negative). *)
Definition busday_offset (o : CustomBusinessDay) (k : Z) (offsets : Z) (r : Roll)
  : option Z :=
  k0 ← roll o (roll_dir r) (search_bound o) k;
  if 0 <=? offsets then step_busdays o 1 (Z.to_nat offsets) k0
  else step_busdays o (-1) (Z.to_nat (- offsets)) k0.

(** [offset._apply(t)], that is [t + offset]: the roll is ["forward"] when
    [n <= 0] and ["backward"] otherwise, and the time of day is kept. *)
Definition apply_offset (o : CustomBusinessDay) (t : Timestamp) : option Timestamp :=
  let r := if n o <=? 0 then RollForward else RollBackward in
  k ← busday_offset o (day_number t) (n o) r;
  Some (combine k (time_of_day t)).

(** [-offset] and [type(offset)(1, ...)]. *)
Definition neg_offset (o : CustomBusinessDay) : CustomBusinessDay :=
  {| n := - n o; busdaycal_holidays := busdaycal_holidays o |}.

Definition one_offset (o : CustomBusinessDay) : CustomBusinessDay :=
  {| n := 1; busdaycal_holidays := busdaycal_holidays o |}.

(** [t + offset] and [t - offset]; [apply_offset_total] shows that the
    offset always applies, so that the default is never taken. *)
Definition add_offset (t : Timestamp) (o : CustomBusinessDay) : Timestamp :=
  default t (apply_offset o t).

Definition sub_offset (t : Timestamp) (o : CustomBusinessDay) : Timestamp :=
  add_offset t (neg_offset o).

(** [offset.rollforward(t)]. *)
Definition rollforward (o : CustomBusinessDay) (t : Timestamp) : Timestamp :=
  if is_on_offset o t then t else add_offset t (one_offset o).

(** The loop of [pandas.core.arrays.datetimes.generate_range] for an offset
    with [n >= 0]: yield [cur] while [cur <= end], stepping by the offset.
    Each step moves at least one day on, so one unit of fuel per day up to
    [end] is enough ([generate_range_spec]). *)
Fixpoint generate_range (o : CustomBusinessDay) (fuel : nat)
    (cur end_ : Timestamp) : list Timestamp :=
  match fuel with
  | O => []
  | S f =>
      if cur <=? end_ then
        cur :: (if cur =? end_ then [] else generate_range o f (add_offset cur o) end_)
      else []
  end.

(** [pd.date_range(start, end, freq=offset)]: [start] is first rolled onto
    the offset; an end before the rolled start gives zero periods. *)
Definition date_range (o : CustomBusinessDay) (start end_ : Timestamp)
  : list Timestamp :=
  let start := rollforward o start in
  if end_ <? start then []
  else generate_range o (S (Z.to_nat (day_number end_ - day_number start))) start end_.

(** ** Python results: a value or a raised exception *)

Inductive exn :=
  | AttributeError (cls attr : string)
  | KeyError (key : string)
  | ValueError (text : string)
  | TypeError
  | ParseError
  | RequestException
  | OutOfBoundsDatetime.

Inductive res (A : Type) :=
  | Ok (a : A)
  | Raise (e : exn).
Arguments Ok {A} a.
Arguments Raise {A} e.

#[global] Instance res_ret : MRet res := λ A a, Ok a.

#[global] Instance res_bind : MBind res := λ A B f m,
  match m with
  | Ok a => f a
  | Raise e => Raise e
  end.

Definition raises {A} (r : res A) : Prop := ∃ e, r = Raise e.

(** [map] over a list with a function that may raise: the first exception wins. *)
Fixpoint res_map {A B} (f : A → res B) (l : list A) : res (list B) :=
  match l with
  | [] => Ok []
  | x :: l' => y ← f x; ys ← res_map f l'; Ok (y :: ys)
  end.

(** ** The range of [pd.Timestamp]

    A [pd.Timestamp] holds its nanoseconds in 64 bits: [pd.Timestamp.min]
    is 1677-09-21 00:12:43.145224193 and [pd.Timestamp.max] is
    2262-04-11 23:47:16.854775807. *)

Definition Timestamp_min : Timestamp := -9223372036854775807.
Definition Timestamp_max : Timestamp := 9223372036854775807.

(** Building a [pd.Timestamp] from a computed date: pandas raises
    [OutOfBoundsDatetime] when the instant is outside the range. *)
Definition to_Timestamp (t : Z) : res Timestamp :=
  if bool_decide (Timestamp_min <= t <= Timestamp_max) then Ok t
  else Raise OutOfBoundsDatetime.

(** ** [class BRCal] *)

Module BRCal.

(** The instance state: the holiday timestamps read from the ANBIMA
    sheet ([set()] when the download failed). *)
Record t := { _holidays : gset Timestamp }.

(** [CustomBusinessDay(weekmask="Mon Tue Wed Thu Fri", holidays=self._holidays)]. *)
Definition _custom_bday (self : t) : CustomBusinessDay :=
  {| n := 1; busdaycal_holidays := set_map day_number (_holidays self) |}.

(** [today]: the clock reading [now], normalized to midnight. *)
Definition today (now : Timestamp) : Timestamp := normalize now.

Definition day_range (self : t) (start_date end_date : Timestamp)
  : list Timestamp :=
  let start_date := normalize start_date in
  let end_date := normalize end_date in
  date_range (_custom_bday self) start_date end_date.

Definition is_business_day (self : t) (date : Timestamp) : bool :=
  let date := normalize date in
  (weekday date <? 5) && bool_decide (date ∉ _holidays self).

(** [date - self._custom_bday]: the offset steps back to the last day it
    accepts before [date], and the result is built as a [pd.Timestamp], which
    raises [OutOfBoundsDatetime] when that day is before [pd.Timestamp.min].
    The statements about it are for dates whose own midnight is in the
    range, which leaves out the first, incomplete day of the range. *)
Definition previous_business_day (self : t) (date : Timestamp) : res Timestamp :=
  let date := normalize date in
  to_Timestamp (sub_offset date (_custom_bday self)).

(** [day_count] looks up the attribute [bday_range] on the instance.  The
    attributes of a [BRCal] are the instance attributes set in [__init__]
    and the properties and methods of the class. *)
Definition attributes : list string :=
  [ "url"; "_holidays"; "_custom_bday"; "now"; "today"; "_fetch_holidays";
    "day_range"; "is_business_day"; "day_count"; "previous_business_day" ].

(** [getattr(self, name)] where the caller goes on to call the result with
    two dates and take [len] of what it returns: the one attribute that is
    such a method is [day_range]; a name that is no attribute at all raises
    [AttributeError]. *)
Definition getattr_range (self : t) (name : string)
  : res (Timestamp → Timestamp → list Timestamp) :=
  if bool_decide (name ∈ attributes) then
    if bool_decide (name = "day_range") then Ok (day_range self)
    else Raise TypeError
  else Raise (AttributeError "BRCal" name).

Definition day_count (self : t) (start_date end_date : Timestamp) : res Z :=
  bday_range ← getattr_range self "bday_range";
  let bdays := bday_range start_date end_date in
  Ok (Z.max 0 (Z.of_nat (length bdays) - 1)).

End BRCal.

(** ** Data frames

    The stored table has the schema [date, type, b1, b2, b3, b4, l1, l2].
    A row holds one cell per schema column; [None] is a missing value
    ([NaT], [NaN] or [None]), which is also what a row has in a column its
    frame lacks.  [float] stands for the values of a numeric cell, with the
    equality [drop_duplicates] compares them by. *)

Section Pandas.

Context {float : Type} `{EqDecision float}.

Record Row := {
  row_date : option Timestamp;
  row_type : option string;
  b1 : option float;
  b2 : option float;
  b3 : option float;
  b4 : option float;
  l1 : option float;
  l2 : option float
}.

#[global] Instance Row_eq_dec : EqDecision Row.
Proof. solve_decision. Defined.

Record DataFrame := {
  columns : list string;
  rows : list Row
}.

(** [pd.DataFrame()]. *)
Definition DataFrame_new : DataFrame := {| columns := []; rows := [] |}.

(** [pd.DataFrame(records)] for a list of dicts that all have the keys of
    the schema: no record gives a frame without columns. *)
Definition schema : list string :=
  [ "date"; "type"; "b1"; "b2"; "b3"; "b4"; "l1"; "l2" ].

Definition DataFrame_of_records (records : list Row) : DataFrame :=
  match records with
  | [] => DataFrame_new
  | _ :: _ => {| columns := schema; rows := records |}
  end.

(** [df.empty]: some axis has length 0. *)
Definition empty (df : DataFrame) : bool :=
  match rows df, columns df with
  | [], _ => true
  | _, [] => true
  | _ :: _, _ :: _ => false
  end.

(** [df.shape[0]]. *)
Definition nrows (df : DataFrame) : nat := length (rows df).

(** [date in df["date"].unique()]: some cell of the column is that instant
    (a missing cell is equal to none). *)
Definition date_in_unique (date : Timestamp) (df : DataFrame) : bool :=
  bool_decide (Some date ∈ map row_date (rows df)).

(** [pd.concat([a, b], ignore_index=True)]: the rows of [a] then those of
    [b], over the columns of [a] followed by the new ones of [b]. *)
Definition concat (a b : DataFrame) : DataFrame :=
  {| columns := columns a ++ filter (λ c, c ∉ columns a) (columns b);
     rows := rows a ++ rows b |}.

(** Keep the first of each group of identical rows. *)
Fixpoint drop_seen (seen : list Row) (l : list Row) : list Row :=
  match l with
  | [] => []
  | r :: l' =>
      if bool_decide (r ∈ seen) then drop_seen seen l'
      else r :: drop_seen (r :: seen) l'
  end.

(** [df.drop_duplicates(inplace=True)]: pandas returns early, leaving the
    frame as it is, when the frame is empty. *)
Definition drop_duplicates (df : DataFrame) : DataFrame :=
  if empty df then df
  else {| columns := columns df; rows := drop_seen [] (rows df) |}.

(** The order [sort_values] puts the [date] cells in: ascending, missing
    values last. *)
Definition date_le (x y : option Timestamp) : Prop :=
  match x, y with
  | _, None => True
  | None, Some _ => False
  | Some a, Some b => a <= b
  end.

Definition row_date_le (r s : Row) : Prop := date_le (row_date r) (row_date s).

#[global] Instance date_le_dec x y : Decision (date_le x y).
Proof. destruct x, y; simpl; apply _. Defined.

#[global] Instance row_date_le_dec r s : Decision (row_date_le r s).
Proof. unfold row_date_le. apply _. Defined.

(** [df.sort_values("date", inplace=True, ascending=True)]: [KeyError] when
    the frame has no such column.  pandas does not promise an order among
    rows of equal date; nothing below depends on it. *)
Definition sort_values_date (df : DataFrame) : res DataFrame :=
  if bool_decide ("date" ∈ columns df) then
    Ok {| columns := columns df; rows := merge_sort row_date_le (rows df) |}
  else Raise (KeyError "date").

(** [df.reset_index(drop=True, inplace=True)]: the index of a row is its
    position, so nothing changes. *)
Definition reset_index (df : DataFrame) : DataFrame := df.

End Pandas.

Arguments Row : clear implicits.
Arguments DataFrame : clear implicits.

(** ** [class AnbimaIRTSScraper] *)

Module AnbimaIRTSScraper.
Section Scraper.

Context {float : Type}.

(** The attributes of a [PARAMETRO] element of the downloaded document. *)
Record PARAMETRO := {
  Grupo : option string;
  B1 : option string;
  B2 : option string;
  B3 : option string;
  B4 : option string;
  L1 : option string;
  L2 : option string
}.

(** The collaborators: [download_xml] followed by [ET.fromstring] and
    [findall(".//PARAMETRO")], and Python's [float] on a string
    ([None] for a string that [float] refuses). *)
Context (download_parametros : Timestamp → res (list PARAMETRO)).
Context (float_of_string : string → option float).

Definition type_mapping : gmap string string :=
  {[ "PREFIXADOS" := "pre"; "IPCA" := "ipca" ]}.

(** [type_mapping.get(original_type, original_type)]. *)
Definition rename_type (original_type : option string) : option string :=
  match original_type with
  | None => None
  | Some g => Some (default g (type_mapping !! g))
  end.

(** [value.replace(',', '.')]. *)
Fixpoint replace_comma (s : string) : string :=
  match s with
  | EmptyString => EmptyString
  | String c s' =>
      String (if bool_decide (c = ","%char) then "."%char else c) (replace_comma s')
  end.

(** [float(value.replace(',', '.')) if value else None]. *)
Definition convert (value : option string) : res (option float) :=
  match value with
  | None => Ok None
  | Some EmptyString => Ok None
  | Some s =>
      match float_of_string (replace_comma s) with
      | Some x => Ok (Some x)
      | None => Raise (ValueError (replace_comma s))
      end
  end.

Definition parse_param (date : Timestamp) (parametro : PARAMETRO)
  : res (Row float) :=
  let renamed_type := rename_type (Grupo parametro) in
  v1 ← convert (B1 parametro);
  v2 ← convert (B2 parametro);
  v3 ← convert (B3 parametro);
  v4 ← convert (B4 parametro);
  v5 ← convert (L1 parametro);
  v6 ← convert (L2 parametro);
  Ok {| row_date := Some date; row_type := renamed_type;
        b1 := v1; b2 := v2; b3 := v3; b4 := v4; l1 := v5; l2 := v6 |}.

Definition parse_params (xml_content : list PARAMETRO) (date : Timestamp)
  : res (list (Row float)) :=
  res_map (parse_param date) xml_content.

Definition scrape (date : Timestamp) : res (DataFrame float) :=
  xml_content ← download_parametros date;
  parametros ← parse_params xml_content date;
  Ok (DataFrame_of_records parametros).

End Scraper.
End AnbimaIRTSScraper.

(** ** [class AnbimaIRTSManager] *)

Module AnbimaIRTSManager.
Section Manager.

Context {float : Type} `{EqDecision float}.

Inductive level := INFO | WARNING | ERROR.

(** The log lines of the manager. *)
Inductive message :=
  | ExistingLoaded (existing_nrows : nat)
  | NoExistingFile
  | AlreadyPresent (date : Timestamp)
  | NoDateColumn
  | StartingScrape (date : Timestamp)
  | ScrapingError (e : exn)
  | NewDataFetched (date : Timestamp) (new_nrows : nat)
  | CombinedSaved (nrows : nat)
  | NotBusinessDay (date : Timestamp)
  | InTheFuture (date : Timestamp)
  | OlderThan5 (date : Timestamp).

(** What an invocation does to the outside, in order. *)
Inductive event :=
  | Log (lvl : level) (msg : message)
  | ReadFeather
  | Scrape (date : Timestamp)
  | ToFeather (df : DataFrame float).

(** The outside: the clock (read as one instant for the whole of an
    invocation), the Feather file if there is one, and the events so far. *)
Record World := {
  now : Timestamp;
  feather : option (DataFrame float);
  trace : list event
}.

(** A method body: it reads and changes the outside and returns or raises. *)
Definition M (A : Type) : Type := World → res A * World.

Definition ret {A} (a : A) : M A := λ w, (Ok a, w).
Definition raise {A} (e : exn) : M A := λ w, (Raise e, w).

#[global] Instance M_bind : MBind M := λ A B f m w,
  match m w with
  | (Ok a, w') => f a w'
  | (Raise e, w') => (Raise e, w')
  end.

Definition emit (e : event) : M unit :=
  λ w, (Ok (), {| now := now w; feather := feather w; trace := trace w ++ [e] |}).

Definition log (lvl : level) (msg : message) : M unit := emit (Log lvl msg).

Definition get_today : M Timestamp := λ w, (Ok (BRCal.today (now w)), w).

(** [feather_path.exists()]. *)
Definition feather_exists : M bool := λ w, (Ok (bool_decide (is_Some (feather w))), w).

(** [pd.read_feather(feather_path)], called when the file exists. *)
Definition read_feather : M (DataFrame float) :=
  λ w, (Ok (default DataFrame_new (feather w)),
        {| now := now w; feather := feather w; trace := trace w ++ [ReadFeather] |}).

(** [df.to_feather(feather_path)]: the file is replaced as a whole. *)
Definition to_feather (df : DataFrame float) : M unit :=
  λ w, (Ok (), {| now := now w; feather := Some df; trace := trace w ++ [ToFeather df] |}).

(** The instance: its calendar and the [scrape] method of its scraper. *)
Record t := {
  calendar : BRCal.t;
  scraper_scrape : Timestamp → res (DataFrame float)
}.

(** [self.scraper.scrape(date)], with the call recorded. *)
Definition call_scrape (self : t) (date : Timestamp) : M (DataFrame float) :=
  emit (Scrape date);;
  match scraper_scrape self date with
  | Ok df => ret df
  | Raise e => raise e
  end.

(** [try: body except Exception as e: handler(e)]. *)
Definition try_except {A} (body : M A) (handler : exn → M A) : M A :=
  λ w, match body w with
       | (Ok a, w') => (Ok a, w')
       | (Raise e, w') => handler e w'
       end.

Definition _validate_date (self : t) (date : Timestamp) : M bool :=
  if negb (BRCal.is_business_day (calendar self) date) then
    log WARNING (NotBusinessDay date);;
    ret false
  else
  today ← get_today;
  if date >? today return M bool then
    log WARNING (InTheFuture date);;
    ret false
  else
  today ← get_today;
  let day_count := length (BRCal.day_range (calendar self) date today) in
  if (5 <? day_count)%nat then
    log WARNING (OlderThan5 date);;
    ret false
  else
  ret true.

(** The merge and the write at the end of [scrape_and_update]. *)
Definition merge_and_store (existing_df new_data : DataFrame float) : M bool :=
  let combined_df := concat existing_df new_data in
  let combined_df := drop_duplicates combined_df in
  match sort_values_date combined_df with
  | Raise e => raise e
  | Ok combined_df =>
      let combined_df := reset_index combined_df in
      to_feather combined_df;;
      log INFO (CombinedSaved (nrows combined_df));;
      ret true
  end.

Definition scrape_and_merge (self : t) (date : Timestamp)
    (existing_df : DataFrame float) : M bool :=
  log INFO (StartingScrape date);;
  new_data ← try_except (call_scrape self date)
               (λ e, log ERROR (ScrapingError e);; raise e);
  let new_nrows := nrows new_data in
  log INFO (NewDataFetched date new_nrows);;
  merge_and_store existing_df new_data.

Definition load_existing : M (DataFrame float) :=
  file_exists ← feather_exists;
  if (file_exists : bool) return M (DataFrame float) then
    existing_df ← read_feather;
    let existing_nrows := nrows existing_df in
    log INFO (ExistingLoaded existing_nrows);;
    ret existing_df
  else
    log INFO NoExistingFile;;
    ret DataFrame_new.

Definition scrape_and_update (self : t) (date : Timestamp) : M bool :=
  valid ← _validate_date self date;
  if negb valid return M bool then ret false
  else
  existing_df ← load_existing;
  if negb (empty existing_df) && bool_decide ("date" ∈ columns existing_df)
  return M bool then
    if date_in_unique date existing_df then
      log INFO (AlreadyPresent date);;
      ret false
    else scrape_and_merge self date existing_df
  else if negb (empty existing_df) then
    log WARNING NoDateColumn;;
    scrape_and_merge self date existing_df
  else scrape_and_merge self date existing_df.

(** *** Vocabulary for the statements about an invocation *)

(** The outside after some more events and nothing else. *)
Definition add_events (w : World) (evs : list event) : World :=
  {| now := now w; feather := feather w; trace := trace w ++ evs |}.

Definition is_scrape (e : event) : bool :=
  match e with Scrape _ => true | _ => false end.

Definition is_write (e : event) : bool :=
  match e with ToFeather _ => true | _ => false end.

(** The same outside at a later reading of the clock. *)
Definition at_clock (clock : Timestamp) (w : World) : World :=
  {| now := clock; feather := feather w; trace := trace w |}.

(** An event that is neither a fetch nor a write. *)
Definition quiet (e : event) : Prop := is_scrape e = false ∧ is_write e = false.

(** The first check of [_validate_date] that turns [date] down, if any,
    as the warning it logs. *)
Definition rejection (self : t) (clock date : Timestamp) : option message :=
  if negb (BRCal.is_business_day (calendar self) date) then
    Some (NotBusinessDay date)
  else if date >? BRCal.today clock then Some (InTheFuture date)
  else if (5 <? length (BRCal.day_range (calendar self) date (BRCal.today clock)))%nat
  then Some (OlderThan5 date)
  else None.

(** The skip of [scrape_and_update] for a date the stored frame has. *)
Definition already_present (date : Timestamp) (df : DataFrame float) : bool :=
  negb (empty df) && bool_decide ("date" ∈ columns df) && date_in_unique date df.

End Manager.

Arguments World : clear implicits.
Arguments event : clear implicits.
Arguments t : clear implicits.
Arguments M : clear implicits.

End AnbimaIRTSManager.

(** ** Specification vocabulary for the calendar *)

(** The first valid day at or after [k], the last one at or before [k]. *)
Definition first_busday_from (o : CustomBusinessDay) (k j : Z) : Prop :=
  k <= j ∧ is_busday o j = true ∧ ∀ i, k <= i < j → is_busday o i = false.

Definition last_busday_upto (o : CustomBusinessDay) (k j : Z) : Prop :=
  j <= k ∧ is_busday o j = true ∧ ∀ i, j < i <= k → is_busday o i = false.

(** The valid day after [k] and the valid day before [k]. *)
Definition next_busday (o : CustomBusinessDay) (k j : Z) : Prop :=
  first_busday_from o (k + 1) j.

Definition prev_busday (o : CustomBusinessDay) (k j : Z) : Prop :=
  last_busday_upto o (k - 1) j.

(** The valid days from [lo] to [hi], both included, in increasing order. *)
Definition busdays_between (o : CustomBusinessDay) (lo hi : Z) : list Z :=
  filter (λ k, is_busday o k = true) (seqZ lo (hi - lo + 1)).

(** Midnight of the day [k]. *)
Definition midnight (k : Z) : Timestamp := combine k 0.

(** The date [k] business-day steps before [t]: [previous_business_day]
    applied [k] times. *)
Fixpoint steps_before (self : BRCal.t) (k : nat) (t : Timestamp) : res Timestamp :=
  match k with
  | O => Ok t
  | S k' => date ← steps_before self k' t; BRCal.previous_business_day self date
  end.

(** ** Concrete inputs *)

Module Examples.

Import AnbimaIRTSScraper AnbimaIRTSManager.

(** In the examples a numeric cell holds the decimal text it was read from. *)
Definition float_of_string (s : string) : option string := Some s.

Definition no_holidays : BRCal.t := {| BRCal._holidays := ∅ |}.

(** 2024-01-01 is day 19723, a Monday. *)
Definition mon_2024_01_01 : Timestamp := midnight 19723.
Definition tue_2024_01_02 : Timestamp := midnight 19724.
Definition fri_2024_01_05 : Timestamp := midnight 19727.
Definition sun_2024_01_07 : Timestamp := midnight 19729.
Definition mon_2024_01_08 : Timestamp := midnight 19730.

(** 1677-09-22 00:12:43.145224193, a Wednesday: one day after
    [pd.Timestamp.min]. *)
Definition wed_1677_09_22 : Timestamp := -9223285636854775807.

Definition hour : Z := 3600000000000.
Definition mon_2024_01_08_09h : Timestamp := combine 19730 (9 * hour).
Definition mon_2024_01_08_10h : Timestamp := combine 19730 (10 * hour).

Definition document : list PARAMETRO :=
  [ {| Grupo := Some "PREFIXADOS"; B1 := Some "0,1041"; B2 := Some "-0,0123";
       B3 := Some ""; B4 := None; L1 := Some "1,7"; L2 := Some "0,2" |};
    {| Grupo := Some "IPCA"; B1 := Some "0,0571"; B2 := Some "0,0034";
       B3 := Some ""; B4 := None; L1 := Some "0,9"; L2 := Some "0,3" |} ].

Definition download_document (date : Timestamp) : res (list PARAMETRO) := Ok document.
Definition download_nothing (date : Timestamp) : res (list PARAMETRO) := Ok [].
Definition download_fails (date : Timestamp) : res (list PARAMETRO) :=
  Raise RequestException.

Definition manager (download : Timestamp → res (list PARAMETRO))
  : AnbimaIRTSManager.t string :=
  {| calendar := no_holidays; scraper_scrape := scrape download float_of_string |}.

Definition fresh_world (clock : Timestamp) : World string :=
  {| now := clock; feather := None; trace := [] |}.

(** The outside after a first successful run for 2024-01-05. *)
Definition world_with_friday : World string :=
  (scrape_and_update (manager download_document) fri_2024_01_05
     (fresh_world mon_2024_01_08_10h)).2.

End Examples.

(** ** [AnbimaIRTSScraper.download_xml]: the retry loop

    One attempt is [requests.post] followed by [raise_for_status]: it gives
    the content, or raises a [RequestException] (which [HTTPError] is), or
    raises something the loop does not catch.  The outside answers the
    attempts in order, so it is a function of the attempt number. *)

Module Download.
Section Download.

Context {content err : Type}.

Inductive attempt_result :=
  | Responded (c : content)
  | RequestFailed (e : err)
  | OtherFailure (e : err).

(** What the loop does to the outside. *)
Inductive io_event :=
  | Post (attempt : nat)
  | Sleep (seconds : nat).

(** How the call ends; [ReturnedNone] is falling off the end of the loop. *)
Inductive outcome :=
  | Returned (c : content)
  | Raised (e : err)
  | ReturnedNone.

Variable post : nat → attempt_result.

(** [for attempt in attempts: try: ... except RequestException as e:
    if attempt < max_retries - 1: time.sleep(1) else: raise e]. *)
Fixpoint retry_loop (max_retries : nat) (attempts : list nat)
  : outcome * list io_event :=
  match attempts with
  | [] => (ReturnedNone, [])
  | attempt :: rest =>
      match post attempt with
      | Responded c => (Returned c, [Post attempt])
      | RequestFailed e =>
          if (attempt <? max_retries - 1)%nat then
            let '(r, evs) := retry_loop max_retries rest in
            (r, Post attempt :: Sleep 1 :: evs)
          else (Raised e, [Post attempt])
      | OtherFailure e => (Raised e, [Post attempt])
      end
  end.

Definition max_retries : nat := 5.

(** [range(max_retries)] is [seq 0 max_retries]. *)
Definition download_xml : outcome * list io_event :=
  retry_loop max_retries (seq 0 max_retries).

Definition is_post (e : io_event) : bool :=
  match e with Post _ => true | Sleep _ => false end.

Definition is_sleep (e : io_event) : bool :=
  match e with Sleep _ => true | Post _ => false end.

End Download.

Arguments attempt_result : clear implicits.
Arguments outcome : clear implicits.

End Download.

(** ** [BRCal.__init__] and [BRCal._fetch_holidays]

    The sheet read by [pd.read_excel(..., parse_dates=[0])]: each row has
    its date in the column [Data] and other cells; any cell can be missing.
    A failed request gives no sheet. *)

Module BRCalInit.

Record sheet_row := {
  Data : option Timestamp;
  other_cells : list (option string)
}.

Inductive holiday_source :=
  | RequestFailure
  | Sheet (sheet : list sheet_row).

(** A row [dropna()] keeps: no cell of it is missing. *)
Definition complete (r : sheet_row) : bool :=
  bool_decide (is_Some (Data r)) && forallb (λ c, bool_decide (is_Some c)) (other_cells r).

(** [holidays_df.dropna()['Data']]. *)
Definition dropna_Data (sheet : list sheet_row) : list Timestamp :=
  omap Data (List.filter complete sheet).

Definition _fetch_holidays (source : holiday_source) : gset Timestamp :=
  match source with
  | RequestFailure => ∅
  | Sheet sheet => list_to_set (dropna_Data sheet)
  end.

Definition __init__ (source : holiday_source) : BRCal.t :=
  {| BRCal._holidays := _fetch_holidays source |}.

End BRCalInit.

(** ** [auto_scrape.py]

    The script builds a calendar, takes the business day before today, and
    runs one [scrape_and_update] on the manager (which holds a calendar of
    its own).  A [pd.Timestamp] is always true in a condition; an exception
    of [previous_business_day] ends the script before the manager runs. *)

Module auto_scrape.
Section Script.

Context {float : Type} `{EqDecision float}.

(** The two lines the script itself logs. *)
Inductive root_message :=
  | SuccessfullyScraped
  | NotABusinessDay.

Definition truth (t : Timestamp) : bool := true.

(** A call that raises or returns without touching the world. *)
Definition call {A} (r : res A) : AnbimaIRTSManager.M float A := λ w, (r, w).

Definition main (brcal : BRCal.t) (AIRTSM : AnbimaIRTSManager.t float)
  : AnbimaIRTSManager.M float root_message :=
  today ← AnbimaIRTSManager.get_today;
  br_business_day ← call (BRCal.previous_business_day brcal today);
  if truth br_business_day return AnbimaIRTSManager.M float root_message then
    _ ← AnbimaIRTSManager.scrape_and_update AIRTSM br_business_day;
    AnbimaIRTSManager.ret SuccessfullyScraped
  else AnbimaIRTSManager.ret NotABusinessDay.

End Script.
End auto_scrape.

(** ** More vocabulary and concrete inputs *)

(** Every holiday of the calendar is a date, without a time of day. *)
Definition date_only_holidays (self : BRCal.t) : Prop :=
  ∀ h, h ∈ BRCal._holidays self → time_of_day h = 0.

(** How many days before a day of weekday [wd] the last weekday before it
    is: three for a Monday, two for a Sunday, one otherwise. *)
Definition days_back (wd : Z) : Z :=
  if wd =? 0 then 3 else if wd =? 6 then 2 else 1.

(** What [scrape_and_update] emits while it loads the stored frame, when it
    goes on to the fetch. *)
Definition load_prefix {float : Type} (w : AnbimaIRTSManager.World float)
  : list (AnbimaIRTSManager.event float) :=
  match AnbimaIRTSManager.feather w with
  | None => [AnbimaIRTSManager.Log AnbimaIRTSManager.INFO AnbimaIRTSManager.NoExistingFile]
  | Some df =>
      [AnbimaIRTSManager.ReadFeather;
       AnbimaIRTSManager.Log AnbimaIRTSManager.INFO
         (AnbimaIRTSManager.ExistingLoaded (nrows df))]
      ++ (if negb (empty df) && negb (bool_decide ("date" ∈ columns df))
          then [AnbimaIRTSManager.Log AnbimaIRTSManager.WARNING
                  AnbimaIRTSManager.NoDateColumn]
          else [])
  end.

(** The stored frame, or the empty frame when there is no file. *)
Definition stored {float : Type} (w : AnbimaIRTSManager.World float)
  : DataFrame float :=
  default DataFrame_new (AnbimaIRTSManager.feather w).

Definition is_read {float : Type} (e : AnbimaIRTSManager.event float) : bool :=
  match e with AnbimaIRTSManager.ReadFeather => true | _ => false end.

(** The numeric attributes of a [PARAMETRO]. *)
Definition numeric_attributes
  : list (AnbimaIRTSScraper.PARAMETRO → option string) :=
  [ AnbimaIRTSScraper.B1; AnbimaIRTSScraper.B2; AnbimaIRTSScraper.B3;
    AnbimaIRTSScraper.B4; AnbimaIRTSScraper.L1; AnbimaIRTSScraper.L2 ].

Module MoreExamples.

Import AnbimaIRTSScraper AnbimaIRTSManager Examples.

(** A calendar whose only holiday is Monday 2024-01-01. *)
Definition new_year : BRCal.t := {| BRCal._holidays := {[ mon_2024_01_01 ]} |}.

Definition holiday_sheet : list BRCalInit.sheet_row :=
  [ {| BRCalInit.Data := Some mon_2024_01_01;
       BRCalInit.other_cells := [Some "segunda-feira"; Some "Confraternizacao Universal"] |};
    {| BRCalInit.Data := None;
       BRCalInit.other_cells := [Some "Fonte: ANBIMA"; None] |} ].

Definition wed_2024_01_03 : Timestamp := midnight 19725.
Definition thu_2024_01_04 : Timestamp := midnight 19726.
Definition tue_2024_01_09 : Timestamp := midnight 19731.

(** A stored frame that has rows and no [date] column. *)
Definition frame_without_date : DataFrame string :=
  {| columns := ["type"; "b1"];
     rows := [ {| row_date := None; row_type := Some "pre"; b1 := Some "0.1";
                  b2 := None; b3 := None; b4 := None; l1 := None; l2 := None |} ] |}.

Definition world_without_date_column : World string :=
  {| now := mon_2024_01_08_10h; feather := Some frame_without_date; trace := [] |}.

(** A document with a number [float] refuses. *)
Definition bad_document : list PARAMETRO :=
  [ {| Grupo := Some "PREFIXADOS"; B1 := Some "0,1041"; B2 := Some "n/d";
       B3 := Some ""; B4 := None; L1 := Some "1,7"; L2 := Some "0,2" |} ].

(** A [float] that takes text made of digits, dots and minus signs only. *)
Definition strict_float_of_string (s : string) : option string :=
  if forallb (λ c, bool_decide (c ∈ String.list_ascii_of_string "0123456789.-"))
       (String.list_ascii_of_string s)
  then Some s else None.

(** Three failed requests and then a response. *)
Definition flaky_post (attempt : nat) : Download.attempt_result string nat :=
  if (attempt <? 3)%nat then Download.RequestFailed attempt
  else Download.Responded "<xml/>".

(** Every request fails, each with an error of its own. *)
Definition dead_post (attempt : nat) : Download.attempt_result string nat :=
  Download.RequestFailed attempt.

(** A request error and then an error the loop does not catch. *)
Definition broken_post (attempt : nat) : Download.attempt_result string nat :=
  if (attempt <? 1)%nat then Download.RequestFailed attempt
  else Download.OtherFailure attempt.

End MoreExamples.

(** ** Day arithmetic *)

Lemma ns_per_day_pos : 0 < ns_per_day.
Proof. reflexivity. Qed.

Lemma day_number_combine k tod :
  0 <= tod < ns_per_day → day_number (combine k tod) = k.
Proof.
  intros Htod. unfold day_number, combine.
  rewrite Z.add_comm, Z.div_add by (pose proof ns_per_day_pos; lia).
  rewrite Z.div_small by done. lia.
Qed.

Lemma time_of_day_combine k tod :
  0 <= tod < ns_per_day → time_of_day (combine k tod) = tod.
Proof.
  intros Htod. unfold time_of_day, combine.
  rewrite Z.add_comm, Z.mod_add by (pose proof ns_per_day_pos; lia).
  by apply Z.mod_small.
Qed.

Lemma time_of_day_range t : 0 <= time_of_day t < ns_per_day.
Proof. apply Z.mod_pos_bound, ns_per_day_pos. Qed.

Lemma combine_day_time t : combine (day_number t) (time_of_day t) = t.
Proof.
  unfold combine, day_number, time_of_day.
  pose proof (Z.div_mod t ns_per_day) as H. pose proof ns_per_day_pos. lia.
Qed.

Lemma normalize_spec t : normalize t = t - time_of_day t.
Proof. pose proof (combine_day_time t). unfold normalize, combine in *. lia. Qed.

Lemma normalize_le t : normalize t <= t.
Proof. rewrite normalize_spec. pose proof (time_of_day_range t). lia. Qed.

Lemma day_number_normalize t : day_number (normalize t) = day_number t.
Proof. apply day_number_combine. pose proof ns_per_day_pos. lia. Qed.

Lemma time_of_day_normalize t : time_of_day (normalize t) = 0.
Proof. apply time_of_day_combine. pose proof ns_per_day_pos. lia. Qed.

Lemma normalize_idemp t : normalize (normalize t) = normalize t.
Proof. unfold normalize at 1. by rewrite day_number_normalize. Qed.

Lemma weekday_normalize t : weekday (normalize t) = weekday t.
Proof. unfold weekday. by rewrite day_number_normalize. Qed.

Lemma day_number_mono a b : a <= b → day_number a <= day_number b.
Proof. intros. apply Z.div_le_mono; [apply ns_per_day_pos | done]. Qed.

Lemma combine_lt k j : combine k 0 < combine j 0 ↔ k < j.
Proof. unfold combine. pose proof ns_per_day_pos. nia. Qed.

Lemma combine_le k j : combine k 0 <= combine j 0 ↔ k <= j.
Proof. unfold combine. pose proof ns_per_day_pos. nia. Qed.

Lemma combine_inj k j : combine k 0 = combine j 0 → k = j.
Proof. unfold combine. pose proof ns_per_day_pos. nia. Qed.

Lemma weekday_of_day_range k : 0 <= weekday_of_day k < 7.
Proof. apply Z.mod_pos_bound. lia. Qed.

(** The weekday numbering: day 0, 1970-01-01, is a Thursday, and each day
    is the weekday after the one before. *)
Lemma weekday_of_day_epoch : weekday_of_day 0 = 3.
Proof. reflexivity. Qed.

Lemma weekday_of_day_succ k :
  weekday_of_day (k + 1) = (weekday_of_day k + 1) `mod` 7.
Proof.
  unfold weekday_of_day.
  replace (k + 1 + 3) with (k + 3 + 1) by lia.
  rewrite (Z.add_mod (k + 3) 1 7) by lia.
  reflexivity.
Qed.

(** ** The day-by-day scan always finds a valid day *)

Section Scan.

Variable o : CustomBusinessDay.

(** What a successful scan returns: the first valid day met. *)
Lemma roll_spec dir fuel k j :
  roll o dir fuel k = Some j →
  ∃ i : nat, (i < fuel)%nat ∧ j = k + dir * Z.of_nat i ∧ is_busday o j = true ∧
    ∀ i' : nat, (i' < i)%nat → is_busday o (k + dir * Z.of_nat i') = false.
Proof.
  revert k. induction fuel as [|f IH]; intros k Hr; simpl in Hr; [done|].
  destruct (is_busday o k) eqn:Hk.
  - injection Hr as <-. exists 0%nat. repeat split; [lia | lia | done | lia].
  - destruct (IH _ Hr) as (i & Hi & -> & Hv & Hbefore).
    exists (S i). repeat split; [lia | lia | done |].
    intros [|i'] Hi'.
    + by replace (k + dir * Z.of_nat 0) with k by lia.
    + replace (k + dir * Z.of_nat (S i')) with (k + dir + dir * Z.of_nat i') by lia.
      apply Hbefore. lia.
Qed.

(** A valid day within reach of the fuel makes the scan succeed. *)
Lemma roll_finds dir fuel k (i : nat) :
  (i < fuel)%nat → is_busday o (k + dir * Z.of_nat i) = true →
  is_Some (roll o dir fuel k).
Proof.
  revert k i. induction fuel as [|f IH]; intros k i Hi Hv; [lia|].
  simpl. destruct (is_busday o k) eqn:Hk; [by eexists|].
  destruct i as [|i].
  - replace (k + dir * Z.of_nat 0) with k in Hv by lia. congruence.
  - apply (IH (k + dir) i); [lia|].
    by replace (k + dir + dir * Z.of_nat i) with (k + dir * Z.of_nat (S i)) by lia.
Qed.

(** Any [search_bound o] consecutive days hold more Mondays than there
    are holidays, so one of them is a valid day. *)
Lemma busday_in_window lo :
  ∃ i : nat, (i < search_bound o)%nat ∧ is_busday o (lo + Z.of_nat i) = true.
Proof.
  set (H := busdaycal_holidays o).
  set (off := (- (lo + 3)) `mod` 7).
  assert (0 <= off < 7) as Hoff by (apply Z.mod_pos_bound; lia).
  set (m := λ i : nat, lo + off + 7 * Z.of_nat i).
  assert (∀ i, weekday_of_day (m i) = 0) as Hmon.
  { intros i. unfold weekday_of_day, m, off.
    pose proof (Z.div_mod (- (lo + 3)) 7 ltac:(lia)) as Hdm.
    replace (lo + (- (lo + 3)) `mod` 7 + 7 * Z.of_nat i + 3)
      with (0 + (Z.of_nat i - (- (lo + 3)) `div` 7) * 7) by lia.
    by rewrite Z.mod_add by lia. }
  assert (Inj (=) (=) m) as Hinj by (intros i i' Hii; unfold m in Hii; lia).
  destruct (decide (Forall (λ i, m i ∈ H) (seq 0 (S (size H))))) as [Hall|Hex].
  - exfalso.
    assert (list_to_set (m <$> seq 0 (S (size H))) ⊆ H) as Hsub.
    { intros x Hx. apply elem_of_list_to_set, list_elem_of_fmap in Hx.
      destruct Hx as (i & -> & Hi). rewrite Forall_forall in Hall. by apply Hall. }
    apply subseteq_size in Hsub. rewrite size_list_to_set in Hsub.
    + rewrite length_fmap, length_seq in Hsub. lia.
    + apply NoDup_fmap_2; [done | apply NoDup_seq].
  - apply not_Forall_Exists, Exists_exists in Hex; [|intros x; apply _].
    destruct Hex as (i & Hi & Hni). apply elem_of_seq in Hi. simpl in Hni.
    exists (Z.to_nat off + 7 * i)%nat. split.
    + unfold search_bound. fold H. clearbody off H. lia.
    + replace (lo + Z.of_nat (Z.to_nat off + 7 * i)) with (m i) by (unfold m; lia).
      unfold is_busday. rewrite Hmon. simpl. by apply bool_decide_eq_true.
Qed.

Lemma roll_forward_total k :
  ∃ j, roll o 1 (search_bound o) k = Some j ∧ first_busday_from o k j.
Proof.
  destruct (busday_in_window k) as (i & Hi & Hv).
  destruct (roll_finds 1 (search_bound o) k i) as [j Hj]; [done | |].
  { by replace (k + 1 * Z.of_nat i) with (k + Z.of_nat i) by lia. }
  exists j. split; [done|].
  destruct (roll_spec _ _ _ _ Hj) as (i0 & _ & -> & Hv0 & Hbefore).
  repeat split; [lia | done |].
  intros x Hx. replace x with (k + 1 * Z.of_nat (Z.to_nat (x - k))) by lia.
  apply Hbefore. lia.
Qed.

Lemma roll_backward_total k :
  ∃ j, roll o (-1) (search_bound o) k = Some j ∧ last_busday_upto o k j.
Proof.
  destruct (busday_in_window (k - Z.of_nat (search_bound o) + 1)) as (i & Hi & Hv).
  destruct (roll_finds (-1) (search_bound o) k (search_bound o - 1 - i)) as [j Hj].
  { lia. }
  { rewrite <- Hv. f_equal. lia. }
  exists j. split; [done|].
  destruct (roll_spec _ _ _ _ Hj) as (i0 & _ & -> & Hv0 & Hbefore).
  repeat split; [lia | done |].
  intros x Hx. replace x with (k + -1 * Z.of_nat (Z.to_nat (k - x))) by lia.
  apply Hbefore. lia.
Qed.

Lemma first_busday_from_unique k j j' :
  first_busday_from o k j → first_busday_from o k j' → j = j'.
Proof.
  intros (Hle & Hv & Hb) (Hle' & Hv' & Hb').
  destruct (Z.lt_trichotomy j j') as [Hlt|[->|Hlt]]; [|done|].
  - specialize (Hb' j ltac:(lia)). congruence.
  - specialize (Hb j' ltac:(lia)). congruence.
Qed.

Lemma last_busday_upto_unique k j j' :
  last_busday_upto o k j → last_busday_upto o k j' → j = j'.
Proof.
  intros (Hle & Hv & Hb) (Hle' & Hv' & Hb').
  destruct (Z.lt_trichotomy j j') as [Hlt|[->|Hlt]]; [|done|].
  - specialize (Hb j' ltac:(lia)). congruence.
  - specialize (Hb' j ltac:(lia)). congruence.
Qed.

Local Opaque roll.

(** [busday_offset] by one day forwards after a backward roll: the first
    valid day after [k], whether or not [k] is valid. *)
Lemma busday_offset_plus_one k :
  ∃ j, busday_offset o k 1 RollBackward = Some j ∧ next_busday o k j.
Proof.
  unfold busday_offset. simpl.
  destruct (roll_backward_total k) as (k0 & -> & Hle0 & Hv0 & Hb0). simpl.
  destruct (roll_forward_total (k0 + 1)) as (j & -> & Hle & Hv & Hb). simpl.
  exists j. split; [done|].
  assert (k < j) as Hkj.
  { destruct (decide (k < j)) as [|Hn]; [done|].
    specialize (Hb0 j ltac:(lia)). congruence. }
  repeat split; [lia | done |].
  intros i Hi. apply Hb. lia.
Qed.

(** [busday_offset] by one day backwards after a forward roll: the last
    valid day before [k], whether or not [k] is valid. *)
Lemma busday_offset_minus_one k :
  ∃ j, busday_offset o k (-1) RollForward = Some j ∧ prev_busday o k j.
Proof.
  unfold busday_offset. simpl.
  destruct (roll_forward_total k) as (k0 & -> & Hle0 & Hv0 & Hb0). simpl.
  destruct (roll_backward_total (k0 + -1)) as (j & -> & Hle & Hv & Hb). simpl.
  exists j. split; [done|].
  assert (j < k) as Hkj.
  { destruct (decide (j < k)) as [|Hn]; [done|].
    specialize (Hb0 j ltac:(lia)). congruence. }
  repeat split; [lia | done |].
  intros i Hi. apply Hb. lia.
Qed.

Lemma step_busdays_total dir count k :
  dir = 1 ∨ dir = -1 → is_Some (step_busdays o dir count k).
Proof.
  intros Hdir. revert k. induction count as [|c IH]; intros k; simpl; [by eexists|].
  destruct Hdir as [-> | ->].
  - destruct (roll_forward_total (k + 1)) as (j & -> & _). simpl. apply IH.
  - destruct (roll_backward_total (k + -1)) as (j & -> & _). simpl. apply IH.
Qed.

Lemma busday_offset_total k offsets r : is_Some (busday_offset o k offsets r).
Proof.
  unfold busday_offset.
  assert (is_Some (roll o (roll_dir r) (search_bound o) k)) as [k0 ->].
  { destruct r; simpl.
    - destruct (roll_forward_total k) as (j & -> & _). by eexists.
    - destruct (roll_backward_total k) as (j & -> & _). by eexists. }
  simpl. destruct (0 <=? offsets); apply step_busdays_total; auto.
Qed.

(** Applying an offset to a timestamp always gives a timestamp. *)
Lemma apply_offset_total t : is_Some (apply_offset o t).
Proof.
  unfold apply_offset.
  destruct (busday_offset_total (day_number t) (n o)
              (if n o <=? 0 then RollForward else RollBackward)) as [k ->].
  by eexists.
Qed.

Local Transparent roll.

End Scan.

(** ** Offsets and ranges on timestamps *)

Section Offsets.

Variable o : CustomBusinessDay.
Hypothesis n_one : n o = 1.

Local Opaque roll.

(** [t + offset]: the same time of day on the first valid day after [t]'s. *)
Lemma add_offset_next t :
  ∃ j, apply_offset o t = Some (combine j (time_of_day t)) ∧
       add_offset t o = combine j (time_of_day t) ∧
       next_busday o (day_number t) j.
Proof.
  unfold add_offset, apply_offset. rewrite n_one. simpl.
  destruct (busday_offset_plus_one o (day_number t)) as (j & -> & Hj).
  by exists j.
Qed.

(** [t - offset]: the same time of day on the last valid day before [t]'s. *)
Lemma sub_offset_prev t :
  ∃ j, apply_offset (neg_offset o) t = Some (combine j (time_of_day t)) ∧
       sub_offset t o = combine j (time_of_day t) ∧
       prev_busday o (day_number t) j.
Proof.
  unfold sub_offset, add_offset, apply_offset. simpl. rewrite n_one.
  change (- (1)) with (-1). simpl.
  destruct (busday_offset_minus_one (neg_offset o) (day_number t)) as (j & -> & Hj).
  by exists j.
Qed.

Lemma rollforward_first t :
  ∃ j, rollforward o t = combine j (time_of_day t) ∧
       first_busday_from o (day_number t) j.
Proof.
  unfold rollforward, is_on_offset.
  destruct (is_busday o (day_number t)) eqn:Hv.
  - exists (day_number t). split; [by rewrite combine_day_time|].
    repeat split; [lia | done | lia].
  - unfold add_offset, apply_offset. simpl.
    destruct (busday_offset_plus_one (one_offset o) (day_number t))
      as (j & -> & Hle & Hvj & Hb).
    exists j. split; [done|]. repeat split; [lia | done |].
    intros i Hi. destruct (decide (i = day_number t)) as [->|]; [done|].
    apply Hb. lia.
Qed.

Local Transparent roll.

Lemma busdays_between_nil lo hi :
  (∀ i, lo <= i <= hi → is_busday o i = false) → busdays_between o lo hi = [].
Proof.
  intros Hnone. unfold busdays_between.
  destruct (filter _ _) as [|x l] eqn:Hf; [done|].
  assert (x ∈ filter (λ k, is_busday o k = true) (seqZ lo (hi - lo + 1))) as Hx
    by (rewrite Hf; left).
  apply list_elem_of_filter in Hx. destruct Hx as [Hv Hx].
  apply elem_of_seqZ in Hx. rewrite Hnone in Hv by lia. done.
Qed.

Lemma busdays_between_split lo mid hi :
  lo <= mid <= hi + 1 →
  busdays_between o lo hi = busdays_between o lo (mid - 1) ++ busdays_between o mid hi.
Proof.
  intros Hm. unfold busdays_between. rewrite <- filter_app. f_equal.
  replace (hi - lo + 1) with ((mid - 1 - lo + 1) + (hi - mid + 1)) by lia.
  rewrite seqZ_app by lia. do 2 f_equal. lia.
Qed.

Lemma busdays_between_cons lo hi :
  lo <= hi → is_busday o lo = true →
  busdays_between o lo hi = lo :: busdays_between o (lo + 1) hi.
Proof.
  intros Hle Hv. unfold busdays_between.
  rewrite seqZ_cons by lia. rewrite filter_cons_True by done.
  do 3 f_equal; lia.
Qed.

Lemma elem_of_busdays_between lo hi k :
  k ∈ busdays_between o lo hi ↔ lo <= k <= hi ∧ is_busday o k = true.
Proof.
  unfold busdays_between. rewrite list_elem_of_filter, elem_of_seqZ.
  split; intros [? ?]; split; (done || lia).
Qed.

(** The loop of [generate_range], started on a valid day with fuel for the
    days up to [end_], yields exactly the valid days up to [end_]. *)
Lemma generate_range_spec fuel k e :
  is_busday o k = true → k <= e → (Z.to_nat (e - k) < fuel)%nat →
  generate_range o fuel (midnight k) (midnight e)
  = midnight <$> busdays_between o k e.
Proof.
  revert k. induction fuel as [|f IH]; intros k Hv Hle Hfuel; [lia|].
  simpl. unfold midnight at 1 2.
  destruct (Z.leb_spec (combine k 0) (combine e 0)) as [_|Hlt];
    [|apply (proj1 (combine_lt _ _)) in Hlt; lia].
  rewrite busdays_between_cons by done. simpl. f_equal.
  destruct (Z.eqb_spec (midnight k) (midnight e)) as [Heq|Hne].
  - apply combine_inj in Heq. subst e.
    rewrite busdays_between_nil; [done | intros; lia].
  - assert (k < e) as Hke by (destruct (decide (k = e)); [congruence | lia]).
    destruct (add_offset_next (midnight k)) as (j & _ & -> & Hle' & Hvj & Hb).
    unfold midnight in *.
    rewrite time_of_day_combine, day_number_combine in *
      by (pose proof ns_per_day_pos; lia).
    destruct (decide (j <= e)) as [Hje|Hje].
    + rewrite (IH j) by (done || lia).
      rewrite (busdays_between_split (k + 1) j e) by lia.
      rewrite (busdays_between_nil (k + 1) (j - 1)); [done|].
      intros i Hi. apply Hb. lia.
    + rewrite busdays_between_nil by (intros i Hi; apply Hb; lia).
      destruct f as [|f]; [done|]. simpl.
      destruct (Z.leb_spec (combine j 0) (combine e 0)) as [Hc|_]; [|done].
      apply (proj1 (combine_le _ _)) in Hc. lia.
Qed.

(** [date_range] between two midnights is the list of the valid days
    between them. *)
Lemma date_range_spec a e :
  date_range o (midnight a) (midnight e) = midnight <$> busdays_between o a e.
Proof.
  unfold date_range.
  destruct (rollforward_first (midnight a)) as (j & -> & Hle & Hv & Hb).
  unfold midnight in *.
  rewrite time_of_day_combine, !day_number_combine in *
    by (pose proof ns_per_day_pos; lia).
  destruct (Z.ltb_spec (combine e 0) (combine j 0)) as [Hlt|Hge].
  - apply (proj1 (combine_lt _ _)) in Hlt.
    rewrite busdays_between_nil; [done | intros i Hi; apply Hb; lia].
  - apply (proj1 (combine_le _ _)) in Hge.
    rewrite (generate_range_spec _ j e) by (done || lia).
    rewrite (busdays_between_split a j e) by lia.
    rewrite (busdays_between_nil a (j - 1)); [done|].
    intros i Hi. apply Hb. lia.
Qed.

End Offsets.

(** ** The calendar [BRCal] *)

Lemma StronglySorted_filter {A} (R : relation A) (P : A → Prop)
    `{∀ x, Decision (P x)} (l : list A) :
  StronglySorted R l → StronglySorted R (filter P l).
Proof.
  induction 1 as [|x l Hs IH Hall]; [constructor|].
  rewrite filter_cons. destruct (decide (P x)); [|done].
  constructor; [done|].
  rewrite Forall_forall in *. intros y Hy.
  apply list_elem_of_filter in Hy. apply Hall. tauto.
Qed.

Lemma StronglySorted_seqZ lo len : StronglySorted Z.lt (seqZ lo len).
Proof.
  destruct (decide (len <= 0)) as [|Hpos]; [rewrite seqZ_nil by done; constructor|].
  replace len with (Z.of_nat (Z.to_nat len)) by lia.
  generalize (Z.to_nat len) as m. clear. intros m. revert lo.
  induction m as [|m IH]; intros lo; [constructor|].
  rewrite seqZ_cons by lia. constructor.
  - replace (Z.pred (Z.of_nat (S m))) with (Z.of_nat m) by lia. apply IH.
  - apply Forall_forall. intros x Hx. apply elem_of_seqZ in Hx. lia.
Qed.

Lemma StronglySorted_busdays_between o lo hi :
  StronglySorted Z.lt (busdays_between o lo hi).
Proof. apply StronglySorted_filter, StronglySorted_seqZ. Qed.

Section Calendar.

Variable self : BRCal.t.

(** A day the offset object accepts is a business day for
    [is_business_day], at any time of that day. *)
Lemma is_busday_is_business_day t :
  is_busday (BRCal._custom_bday self) (day_number t) = true →
  BRCal.is_business_day self t = true.
Proof.
  unfold is_busday, BRCal.is_business_day, weekmask. intros Hv.
  apply andb_true_iff in Hv. destruct Hv as [Hwd Hh].
  apply andb_true_iff. split.
  - by rewrite weekday_normalize.
  - apply bool_decide_eq_true. apply bool_decide_eq_true in Hh.
    intros Hin. apply Hh. simpl. apply elem_of_map.
    exists (normalize t). by rewrite day_number_normalize.
Qed.

(** [day_range] lists the midnights of the valid days from the day of
    [start_date] to the day of [end_date]. *)
Lemma day_range_spec start_date end_date :
  BRCal.day_range self start_date end_date
  = midnight <$> busdays_between (BRCal._custom_bday self)
                   (day_number start_date) (day_number end_date).
Proof. unfold BRCal.day_range, normalize. by apply date_range_spec. Qed.

Lemma elem_of_day_range start_date end_date x :
  x ∈ BRCal.day_range self start_date end_date ↔
  ∃ k, x = midnight k ∧ day_number start_date <= k <= day_number end_date ∧
       is_busday (BRCal._custom_bday self) k = true.
Proof.
  rewrite day_range_spec, list_elem_of_fmap.
  by setoid_rewrite elem_of_busdays_between.
Qed.

Lemma day_range_sorted start_date end_date :
  StronglySorted Z.lt (BRCal.day_range self start_date end_date).
Proof.
  rewrite day_range_spec.
  apply (StronglySorted_fmap _ Z.lt); [|apply StronglySorted_busdays_between].
  intros x y Hxy. by apply combine_lt.
Qed.

(** The subtraction at the heart of [previous_business_day]: midnight of
    the last valid day before the day of [date]. *)
Lemma previous_business_day_spec date :
  ∃ j, sub_offset (normalize date) (BRCal._custom_bday self) = midnight j ∧
       prev_busday (BRCal._custom_bday self) (day_number date) j.
Proof.
  destruct (sub_offset_prev (BRCal._custom_bday self) eq_refl (normalize date))
    as (j & _ & -> & Hj).
  rewrite time_of_day_normalize, day_number_normalize in *. by exists j.
Qed.

(** What [previous_business_day] returns, when it returns. *)
Lemma previous_business_day_Ok date r :
  BRCal.previous_business_day self date = Ok r →
  Timestamp_min <= r ∧
  ∃ j, r = midnight j ∧ prev_busday (BRCal._custom_bday self) (day_number date) j.
Proof.
  unfold BRCal.previous_business_day, to_Timestamp. simpl.
  destruct (previous_business_day_spec date) as (j & -> & Hj).
  case_bool_decide as Hb; [|done]. intros [= <-]. split; [lia|by exists j].
Qed.

Lemma previous_business_day_facts date r :
  BRCal.previous_business_day self date = Ok r →
  r < date ∧ BRCal.is_business_day self r = true.
Proof.
  intros Hr. destruct (previous_business_day_Ok date r Hr) as (_ & j & -> & Hle & Hv & _).
  split.
  - apply Z.lt_le_trans with (normalize date); [|apply normalize_le].
    apply combine_lt. lia.
  - apply is_busday_is_business_day. unfold midnight.
    rewrite day_number_combine by (pose proof ns_per_day_pos; lia). done.
Qed.

(** [previous_business_day] returns whenever a day the offset accepts, with
    a midnight in the range, lies before the day of [date]. *)
Lemma previous_business_day_returns date b :
  Timestamp_min <= normalize b → date <= Timestamp_max →
  is_on_offset (BRCal._custom_bday self) b = true →
  day_number b < day_number date →
  ∃ r, BRCal.previous_business_day self date = Ok r ∧ normalize b <= r.
Proof.
  intros Hmin Hmax Hon Hlt.
  unfold BRCal.previous_business_day, to_Timestamp. simpl.
  destruct (previous_business_day_spec date) as (j & -> & Hle & Hv & Hlast).
  assert (day_number b <= j) as Hbj.
  { destruct (Z.le_gt_cases (day_number b) j) as [|Hgt]; [done|].
    unfold is_on_offset in Hon. rewrite Hlast in Hon by lia. done. }
  assert (normalize b <= midnight j) as Hb by (by apply combine_le).
  assert (midnight j < date) as Hd.
  { apply Z.lt_le_trans with (normalize date); [|apply normalize_le].
    apply combine_lt. lia. }
  rewrite bool_decide_eq_true_2 by lia. by exists (midnight j).
Qed.

Lemma day_range_bounds a b x :
  x ∈ BRCal.day_range self a b →
  BRCal.is_business_day self x = true ∧ normalize a <= x <= normalize b.
Proof.
  intros Hx. apply elem_of_day_range in Hx. destruct Hx as (k & -> & Hk & Hv).
  unfold midnight. split.
  - apply is_busday_is_business_day.
    by rewrite day_number_combine by (pose proof ns_per_day_pos; lia).
  - unfold normalize. split; apply combine_le; lia.
Qed.

Lemma day_range_nil a b :
  normalize a > normalize b → BRCal.day_range self a b = [].
Proof.
  intros Hgt. rewrite day_range_spec.
  unfold normalize in Hgt. apply Z.gt_lt, (proj1 (combine_lt _ _)) in Hgt.
  unfold busdays_between. by rewrite seqZ_nil by lia.
Qed.

End Calendar.

(** C7. For every date [d] and every holiday set, [is_business_day d] is true
    exactly when the weekday of [d] normalized to midnight is Monday to
    Friday (0 to 4) and the normalized [d] is not in the holiday set. *)
Theorem is_business_day_iff (self : BRCal.t) (d : Timestamp) :
  BRCal.is_business_day self d = true ↔
  0 <= weekday (normalize d) <= 4 ∧ normalize d ∉ BRCal._holidays self.
Proof.
  unfold BRCal.is_business_day. rewrite andb_true_iff, bool_decide_eq_true.
  pose proof (weekday_of_day_range (day_number (normalize d))) as Hr.
  fold (weekday (normalize d)) in Hr.
  split; intros [Hwd Hh]; (split; [|done]).
  - apply Z.ltb_lt in Hwd. lia.
  - apply Z.ltb_lt. lia.
Qed.

(** C5, as amended. For every date [d] and every holiday set such that some
    day the business-day offset accepts lies before the day of [d] and has its
    midnight at or after [pd.Timestamp.min], [previous_business_day d]
    returns a date that is strictly before [d] and is a business day, whether
    or not [d] is one itself. *)
Theorem previous_business_day_before (self : BRCal.t) (d b : Timestamp) :
  Timestamp_min <= normalize b → d <= Timestamp_max →
  is_on_offset (BRCal._custom_bday self) b = true →
  day_number b < day_number d →
  ∃ r, BRCal.previous_business_day self d = Ok r ∧
       r < d ∧ BRCal.is_business_day self r = true.
Proof.
  intros Hmin Hmax Hon Hlt.
  destruct (previous_business_day_returns self d b Hmin Hmax Hon Hlt) as (r & Hr & _).
  exists r. split; [done|]. by apply previous_business_day_facts.
Qed.

(** With a time of day on the arguments, the range is the one of the two
    midnights: [day_range a b] is empty when the normalized [a] is after the
    normalized [b]; in every case it is strictly increasing, each element is
    a business day, its first element is at or after the normalized [a] and
    its last element is at or before the normalized [b] (and so at or before
    [b]). *)
Lemma day_range_normalized (self : BRCal.t) (a b : Timestamp) :
  let l := BRCal.day_range self a b in
  (normalize a > normalize b → l = []) ∧
  StronglySorted Z.lt l ∧
  Forall (λ x, BRCal.is_business_day self x = true) l ∧
  (∀ x, head l = Some x → normalize a <= x) ∧
  (∀ y, last l = Some y → y <= normalize b ∧ y <= b).
Proof.
  intros l. subst l.
  split; [|split; [|split; [|split]]].
  - apply day_range_nil.
  - apply day_range_sorted.
  - apply Forall_forall. intros x Hx. by apply (day_range_bounds self a b).
  - intros x Hx. apply head_Some_elem_of, day_range_bounds in Hx. lia.
  - intros y Hy. apply last_Some_elem_of, day_range_bounds in Hy.
    pose proof (normalize_le b). lia.
Qed.

(** C6. For every pair of dates [a] and [b] ([a] at midnight, as a date
    is): [day_range a b] is empty when [a] is after [b]; otherwise, and in
    every case, it is strictly increasing, each element is a business day,
    its first element is at or after [a] and its last element is at or
    before [b]. *)
Theorem day_range_properties (self : BRCal.t) (a b : Timestamp) :
  time_of_day a = 0 →
  let l := BRCal.day_range self a b in
  (a > b → l = []) ∧
  StronglySorted Z.lt l ∧
  Forall (λ x, BRCal.is_business_day self x = true) l ∧
  (∀ x, head l = Some x → a <= x) ∧
  (∀ y, last l = Some y → y <= b).
Proof.
  intros Htod l. subst l.
  assert (normalize a = a) as Ha by (rewrite normalize_spec; lia).
  pose proof (normalize_le b) as Hb.
  split; [|split; [|split; [|split]]].
  - intros Hgt. apply day_range_nil. lia.
  - apply day_range_sorted.
  - apply Forall_forall. intros x Hx. by apply (day_range_bounds self a b).
  - intros x Hx. apply head_Some_elem_of, day_range_bounds in Hx. lia.
  - intros y Hy. apply last_Some_elem_of, day_range_bounds in Hy. lia.
Qed.

(** ** Data frames: duplicates and order *)

Section Frames.

Context {float : Type} `{EqDecision float}.

Lemma drop_seen_spec (seen l : list (Row float)) :
  NoDup (drop_seen seen l) ∧
  ∀ r, r ∈ drop_seen seen l ↔ r ∈ l ∧ r ∉ seen.
Proof.
  revert seen. induction l as [|x l IH]; intros seen; simpl.
  - split; [constructor|]. intros r. split; [by intros ?%elem_of_nil | intros [?%elem_of_nil _]; done].
  - destruct (bool_decide_reflect (x ∈ seen)) as [Hx|Hx].
    + destruct (IH seen) as [Hnd Hin]. split; [done|].
      intros r. rewrite Hin, elem_of_cons. split; [tauto|].
      intros [[->|Hr] Hns]; [done | tauto].
    + destruct (IH (x :: seen)) as [Hnd Hin]. split.
      * constructor; [|done]. rewrite Hin, elem_of_cons. tauto.
      * intros r. rewrite !elem_of_cons, Hin, elem_of_cons.
        destruct (decide (r = x)) as [->|Hne]; [tauto|]. tauto.
Qed.

Lemma drop_seen_NoDup (l : list (Row float)) : NoDup (drop_seen [] l).
Proof. apply drop_seen_spec. Qed.

Lemma elem_of_drop_seen (l : list (Row float)) r : r ∈ drop_seen [] l ↔ r ∈ l.
Proof.
  destruct (drop_seen_spec [] l) as [_ Hin]. rewrite Hin.
  split; [tauto|]. intros Hr. split; [done | apply not_elem_of_nil].
Qed.

Lemma date_le_total : Total date_le.
Proof. intros [x|] [y|]; simpl; lia || tauto. Qed.

Lemma date_le_trans : Transitive date_le.
Proof. intros [x|] [y|] [z|]; simpl; lia || tauto. Qed.

Lemma row_date_le_total : Total (@row_date_le float).
Proof. intros r s. apply date_le_total. Qed.

Lemma row_date_le_trans : Transitive (@row_date_le float).
Proof. intros r s u. apply date_le_trans. Qed.

(** What a successful [sort_values] after [drop_duplicates] leaves. *)
Lemma merged_frame_invariants (df sorted : DataFrame float) :
  sort_values_date (drop_duplicates df) = Ok sorted →
  "date" ∈ columns sorted ∧
  NoDup (rows sorted) ∧
  StronglySorted row_date_le (rows sorted) ∧
  (∀ r, r ∈ rows sorted ↔ r ∈ rows df).
Proof.
  unfold sort_values_date, drop_duplicates.
  destruct (empty df) eqn:Hemp.
  - destruct (bool_decide_reflect ("date" ∈ columns df)) as [Hc|Hc]; [|done].
    intros [= <-]. simpl. split; [done|].
    assert (rows df = []) as ->.
    { unfold empty in Hemp. destruct (rows df); [done|].
      destruct (columns df); [by apply elem_of_nil in Hc | done]. }
    repeat split; try constructor; done.
  - simpl. destruct (bool_decide_reflect ("date" ∈ columns df)) as [Hc|Hc]; [|done].
    intros [= <-]. simpl. split; [done|]. split; [|split].
    + rewrite merge_sort_Permutation. apply drop_seen_NoDup.
    + pose proof (@row_date_le_trans) as Htrans.
    pose proof (@row_date_le_total) as Htotal.
    apply StronglySorted_merge_sort; apply _.
    + intros r. rewrite merge_sort_Permutation. apply elem_of_drop_seen.
Qed.

Lemma sort_values_date_raises (df : DataFrame float) e :
  sort_values_date df = Raise e → e = KeyError "date" ∧ "date" ∉ columns df.
Proof.
  unfold sort_values_date.
  destruct (bool_decide_reflect ("date" ∈ columns df)); [done|].
  by intros [= <-].
Qed.

Lemma columns_drop_duplicates (df : DataFrame float) :
  columns (drop_duplicates df) = columns df.
Proof. unfold drop_duplicates. by destruct (empty df). Qed.

End Frames.

(** ** The steps of [scrape_and_update] *)

Import AnbimaIRTSManager.

Section Runs.

Context {float : Type} `{EqDecision float}.

Implicit Types (self : AnbimaIRTSManager.t float) (w : World float)
  (df : DataFrame float) (date : Timestamp).

Lemma add_events_nil w : add_events w [] = w.
Proof. destruct w. unfold add_events. simpl. by rewrite app_nil_r. Qed.

Lemma add_events_app w evs evs' :
  add_events (add_events w evs) evs' = add_events w (evs ++ evs').
Proof. unfold add_events. simpl. by rewrite app_assoc. Qed.

(** [_validate_date] returns, logging one warning when it turns the date
    down and nothing otherwise. *)
Lemma validate_date_run self date w :
  _validate_date self date w =
  match rejection self (now w) date with
  | Some msg => (Ok false, add_events w [Log WARNING msg])
  | None => (Ok true, w)
  end.
Proof.
  unfold _validate_date, rejection.
  destruct (negb (BRCal.is_business_day (calendar self) date)); [done|].
  unfold mbind, M_bind, get_today. 
  destruct (date >? BRCal.today (now w)); [done|].
  by destruct (5 <? length _)%nat.
Qed.

Lemma load_existing_run w :
  load_existing w =
  match feather w with
  | Some df =>
      (Ok df, add_events w [ReadFeather; Log INFO (ExistingLoaded (nrows df))])
  | None => (Ok DataFrame_new, add_events w [Log INFO NoExistingFile])
  end.
Proof.
  unfold load_existing, mbind, M_bind, feather_exists, read_feather, log, emit, ret.
  destruct w as [clock [df|] tr]; simpl; [|done].
  unfold add_events. simpl. by rewrite <- app_assoc.
Qed.

(** The fetch and what follows it. *)
Lemma scrape_and_merge_run self date existing_df w :
  scrape_and_merge self date existing_df w =
  match scraper_scrape self date with
  | Raise e =>
      (Raise e, add_events w [Log INFO (StartingScrape date); Scrape date;
                              Log ERROR (ScrapingError e)])
  | Ok new_data =>
      match sort_values_date (drop_duplicates (concat existing_df new_data)) with
      | Raise e =>
          (Raise e, add_events w [Log INFO (StartingScrape date); Scrape date;
                                  Log INFO (NewDataFetched date (nrows new_data))])
      | Ok combined_df =>
          (Ok true,
           {| now := now w; feather := Some combined_df;
              trace := trace w ++
                [Log INFO (StartingScrape date); Scrape date;
                 Log INFO (NewDataFetched date (nrows new_data));
                 ToFeather combined_df;
                 Log INFO (CombinedSaved (nrows combined_df))] |})
      end
  end.
Proof.
  unfold scrape_and_merge, merge_and_store, try_except, call_scrape.
  unfold mbind, M_bind, log, emit, ret, raise, to_feather, reset_index, add_events.
  simpl.
  destruct (scraper_scrape self date) as [new_data|e]; simpl.
  - destruct (sort_values_date _) as [combined_df|e]; simpl;
      by rewrite <- !app_assoc.
  - by rewrite <- !app_assoc.
Qed.

(** [scrape_and_update] as a whole. *)
Lemma scrape_and_update_run self date w :
  scrape_and_update self date w =
  match rejection self (now w) date with
  | Some msg => (Ok false, add_events w [Log WARNING msg])
  | None =>
      match feather w with
      | Some df =>
          let w1 := add_events w [ReadFeather; Log INFO (ExistingLoaded (nrows df))] in
          if already_present date df then
            (Ok false, add_events w1 [Log INFO (AlreadyPresent date)])
          else if negb (empty df) && negb (bool_decide ("date" ∈ columns df)) then
            scrape_and_merge self date df (add_events w1 [Log WARNING NoDateColumn])
          else scrape_and_merge self date df w1
      | None =>
          scrape_and_merge self date DataFrame_new
            (add_events w [Log INFO NoExistingFile])
      end
  end.
Proof.
  unfold scrape_and_update. unfold mbind at 1. unfold M_bind at 1.
  rewrite validate_date_run.
  destruct (rejection self (now w) date) as [msg|]; [done|]. simpl.
  unfold mbind at 1. unfold M_bind at 1. rewrite load_existing_run.
  destruct (feather w) as [df|]; [|done].
  unfold already_present.
  destruct (empty df); simpl; [done|].
  destruct (bool_decide ("date" ∈ columns df)); simpl.
  - by destruct (date_in_unique date df).
  - done.
Qed.

End Runs.

(** ** Properties of [scrape_and_update] *)

Section Workflow.

Context {float : Type} `{EqDecision float}.

Implicit Types (self : AnbimaIRTSManager.t float) (w : World float)
  (df : DataFrame float) (date : Timestamp).

(** A frame that is not empty, has a [date] column and holds [date]. *)
Lemma already_present_intro date df :
  empty df = false → "date" ∈ columns df → Some date ∈ map row_date (rows df) →
  already_present date df = true.
Proof.
  intros Hemp Hcol Hin. unfold already_present, date_in_unique.
  rewrite Hemp. simpl. by rewrite !bool_decide_eq_true_2.
Qed.

(** With the date already stored, [scrape_and_update] returns [False]
    after logging at most: no fetch, no write. *)
Lemma skip_when_present self date w df :
  feather w = Some df → already_present date df = true →
  ∃ evs, scrape_and_update self date w = (Ok false, add_events w evs) ∧
         Forall quiet evs.
Proof.
  intros Hf Hp. rewrite scrape_and_update_run.
  destruct (rejection self (now w) date) as [msg|].
  - eexists. split; [done|]. by repeat constructor.
  - rewrite Hf. simpl. rewrite Hp, add_events_app.
    eexists. split; [done|]. by repeat constructor.
Qed.

(** Every invocation only appends to the trace, keeps the clock, and
    leaves the file alone unless it returns [True]. *)
Lemma scrape_and_update_frame self date w :
  ∃ evs, trace (scrape_and_update self date w).2 = trace w ++ evs ∧
    ((scrape_and_update self date w).1 ≠ Ok true →
       feather (scrape_and_update self date w).2 = feather w ∧
       Forall (λ e, is_write e = false) evs).
Proof.
  rewrite scrape_and_update_run.
  assert (∀ existing w0 pre,
    trace w0 = trace w ++ pre → feather w0 = feather w →
    Forall (λ e, is_write e = false) pre →
    ∃ evs, trace (scrape_and_merge self date existing w0).2 = trace w ++ evs ∧
      ((scrape_and_merge self date existing w0).1 ≠ Ok true →
         feather (scrape_and_merge self date existing w0).2 = feather w ∧
         Forall (λ e : event float, is_write e = false) evs)) as Hmerge.
  { intros existing w0 pre Htr Hfe Hpre. rewrite scrape_and_merge_run.
    destruct (scraper_scrape self date) as [new_data|e]; simpl.
    - destruct (sort_values_date _) as [combined|e]; simpl.
      + rewrite Htr, <- app_assoc. eexists. split; [done|]. done.
      + rewrite Htr, <- app_assoc. eexists. split; [done|].
        intros _. split; [done|]. apply Forall_app. split; [done|].
        by repeat constructor.
    - rewrite Htr, <- app_assoc. eexists. split; [done|].
      intros _. split; [done|]. apply Forall_app. split; [done|].
      by repeat constructor. }
  destruct (rejection self (now w) date) as [msg|].
  { eexists. split; [done|]. intros _. split; [done|]. by repeat constructor. }
  destruct (feather w) as [df|] eqn:Hf; simpl.
  - destruct (already_present date df).
    + simpl. rewrite <- app_assoc. eexists. split; [done|].
      intros _. split; [done|]. by repeat constructor.
    + destruct (negb (empty df) && negb (bool_decide ("date" ∈ columns df))).
      * eapply Hmerge; simpl; [by rewrite <- app_assoc | done | by repeat constructor].
      * eapply Hmerge; simpl; [done | done | by repeat constructor].
  - eapply Hmerge; simpl; [done | done | by repeat constructor].
Qed.

(** A run that returns [True] fetched a frame, merged it with the stored
    one and stored the result. *)
Lemma success_inversion self date w w' :
  scrape_and_update self date w = (Ok true, w') →
  ∃ new_data combined,
    scraper_scrape self date = Ok new_data ∧
    sort_values_date
      (drop_duplicates (concat (default DataFrame_new (feather w)) new_data))
    = Ok combined ∧
    feather w' = Some combined ∧
    now w' = now w.
Proof.
  rewrite scrape_and_update_run.
  assert (∀ existing w0, now w0 = now w →
    scrape_and_merge self date existing w0 = (Ok true, w') →
    ∃ new_data combined,
      scraper_scrape self date = Ok new_data ∧
      sort_values_date (drop_duplicates (concat existing new_data)) = Ok combined ∧
      feather w' = Some combined ∧ now w' = now w) as Hmerge.
  { intros existing w0 Hnow. rewrite scrape_and_merge_run.
    destruct (scraper_scrape self date) as [new_data|e]; [|done].
    destruct (sort_values_date _) as [combined|e] eqn:Hsort; [|done].
    intros [= <-]. by exists new_data, combined. }
  destruct (rejection self (now w) date); [done|].
  destruct (feather w) as [df|]; simpl; [|by apply Hmerge].
  destruct (already_present date df); [done|].
  destruct (negb (empty df) && negb _); by apply Hmerge.
Qed.

(** After a run that returned [True] and whose fetch brought a row of the
    requested date, a further run for that date, at any later reading of
    the clock, returns [False] without a fetch or a write. *)
Lemma skip_after_success self date w w' new_data clock :
  scrape_and_update self date w = (Ok true, w') →
  scraper_scrape self date = Ok new_data →
  Some date ∈ map row_date (rows new_data) →
  ∃ evs, scrape_and_update self date (at_clock clock w')
         = (Ok false, add_events (at_clock clock w') evs) ∧
         Forall quiet evs.
Proof.
  intros Hrun Hfetch Hin.
  destruct (success_inversion _ _ _ _ Hrun) as (new' & combined & Hf' & Hsort & Hfe & _).
  rewrite Hfetch in Hf'. injection Hf' as <-.
  apply merged_frame_invariants in Hsort.
  destruct Hsort as (Hcol & _ & _ & Hrows).
  apply list_elem_of_fmap in Hin. destruct Hin as (r & Hr & Hrin).
  assert (r ∈ rows combined) as Hrc.
  { apply Hrows. simpl. apply elem_of_app. by right. }
  apply (skip_when_present self date (at_clock clock w') combined); [done|].
  apply already_present_intro; [|done|].
  - unfold empty. destruct (rows combined); [by apply elem_of_nil in Hrc|].
    destruct (columns combined); [by apply elem_of_nil in Hcol | done].
  - apply list_elem_of_fmap. by exists r.
Qed.

End Workflow.

(** ** The scraper *)

Section ScraperFacts.

Context {float : Type}.
Variable download : Timestamp → res (list AnbimaIRTSScraper.PARAMETRO).
Variable float_of_string : string → option float.

Lemma res_map_Ok {A B} (f : A → res B) (l : list A) (ys : list B) :
  res_map f l = Ok ys → Forall2 (λ x y, f x = Ok y) l ys.
Proof.
  revert ys. induction l as [|x l IH]; intros ys; simpl.
  - intros [= <-]. constructor.
  - destruct (f x) as [y|e] eqn:Hx; [|done]. simpl.
    destruct (res_map f l) as [ys'|e]; [|done]. simpl.
    intros [= <-]. constructor; [done|]. by apply IH.
Qed.

Lemma parse_param_date date parametro (r : Row float) :
  AnbimaIRTSScraper.parse_param float_of_string date parametro = Ok r →
  row_date r = Some date.
Proof.
  unfold AnbimaIRTSScraper.parse_param.
  destruct (AnbimaIRTSScraper.convert float_of_string (AnbimaIRTSScraper.B1 parametro));
    simpl; [|done].
  destruct (AnbimaIRTSScraper.convert float_of_string (AnbimaIRTSScraper.B2 parametro));
    simpl; [|done].
  destruct (AnbimaIRTSScraper.convert float_of_string (AnbimaIRTSScraper.B3 parametro));
    simpl; [|done].
  destruct (AnbimaIRTSScraper.convert float_of_string (AnbimaIRTSScraper.B4 parametro));
    simpl; [|done].
  destruct (AnbimaIRTSScraper.convert float_of_string (AnbimaIRTSScraper.L1 parametro));
    simpl; [|done].
  destruct (AnbimaIRTSScraper.convert float_of_string (AnbimaIRTSScraper.L2 parametro));
    simpl; [|done].
  by intros [= <-].
Qed.

(** Every parsed record carries the requested date. *)
Lemma parse_params_dates xml_content date (records : list (Row float)) :
  AnbimaIRTSScraper.parse_params float_of_string xml_content date = Ok records →
  length records = length xml_content ∧
  Forall (λ r, row_date r = Some date) records.
Proof.
  unfold AnbimaIRTSScraper.parse_params. intros Hmap%res_map_Ok.
  split; [symmetry; by eapply Forall2_length|].
  induction Hmap as [|p r xml rs Hp _ IH]; constructor; [|done].
  by eapply parse_param_date.
Qed.

(** The frame [scrape] returns: rows of the requested date over the schema,
    or no column at all when the document holds no record. *)
Lemma scrape_frame date (df : DataFrame float) :
  AnbimaIRTSScraper.scrape download float_of_string date = Ok df →
  Forall (λ r, row_date r = Some date) (rows df) ∧
  (rows df = [] → columns df = []) ∧
  (rows df ≠ [] → columns df = schema).
Proof.
  unfold AnbimaIRTSScraper.scrape.
  destruct (download date) as [xml|e]; [|done]. simpl.
  destruct (AnbimaIRTSScraper.parse_params float_of_string xml date)
    as [records|e] eqn:Hp; [|done]. simpl.
  intros [= <-]. apply parse_params_dates in Hp. destruct Hp as [_ Hall].
  destruct records as [|r records]; simpl; [by repeat split|].
  by repeat split.
Qed.

End ScraperFacts.

(** C3. If the stored dataset is not empty, has a [date] column and already
    holds a row of the requested date, [scrape_and_update] returns [False],
    performs no fetch and no write, and leaves the stored frame (and so its
    row count) as it was; a second invocation for the same date, at any
    later reading of the clock, again returns [False] and leaves the store
    as the first one left it. *)
Theorem scrape_and_update_idempotent
    {float : Type} `{EqDecision float}
    (self : AnbimaIRTSManager.t float) (date : Timestamp)
    (w : World float) (df : DataFrame float) (clock : Timestamp) :
  feather w = Some df →
  empty df = false →
  "date" ∈ columns df →
  Some date ∈ map row_date (rows df) →
  let run1 := scrape_and_update self date w in
  let run2 := scrape_and_update self date (at_clock clock run1.2) in
  run1.1 = Ok false ∧
  feather run1.2 = Some df ∧
  nrows <$> feather run1.2 = nrows <$> feather w ∧
  (∃ evs, trace run1.2 = trace w ++ evs ∧ Forall quiet evs) ∧
  run2.1 = Ok false ∧
  feather run2.2 = feather run1.2 ∧
  (∃ evs, trace run2.2 = trace run1.2 ++ evs ∧ Forall quiet evs).
Proof.
  intros Hf Hemp Hcol Hin run1 run2.
  pose proof (already_present_intro date df Hemp Hcol Hin) as Hp.
  destruct (skip_when_present self date w df Hf Hp) as (evs1 & Hrun1 & Hq1).
  assert (feather (at_clock clock run1.2) = Some df) as Hf1
    by (subst run1; by rewrite Hrun1).
  destruct (skip_when_present self date _ df Hf1 Hp) as (evs2 & Hrun2 & Hq2).
  subst run2. rewrite Hrun2. subst run1. rewrite Hrun1 in *. simpl.
  rewrite Hf.
  repeat split; try done; by eexists.
Qed.

(** C4. After an invocation of [scrape_and_update] that returns [True], the
    stored dataset has no two identical rows and its rows are in ascending
    order of [date]: the rows that have a date come first, with dates
    ascending, and the rows without one last, as [sort_values] puts them. *)
Theorem scrape_and_update_invariants
    {float : Type} `{EqDecision float}
    (self : AnbimaIRTSManager.t float) (date : Timestamp) (w w' : World float) :
  scrape_and_update self date w = (Ok true, w') →
  ∃ df, feather w' = Some df ∧
        NoDup (rows df) ∧
        StronglySorted row_date_le (rows df) ∧
        StronglySorted Z.le (omap row_date (rows df)).
Proof.
  intros Hrun.
  destruct (success_inversion _ _ _ _ Hrun) as (new_data & df & _ & Hsort & Hf & _).
  apply merged_frame_invariants in Hsort. destruct Hsort as (_ & Hnd & Hs & _).
  exists df. repeat split; try done.
  clear -Hs. induction Hs as [|r l Hs IH Hall]; [constructor|]. simpl.
  destruct (row_date r) as [a|] eqn:Hr; [|done]. simpl.
  constructor; [done|]. rewrite Forall_forall in Hall. apply Forall_forall.
  intros b Hb. apply list_elem_of_omap in Hb. destruct Hb as (s & Hs' & Hsb).
  specialize (Hall s Hs'). unfold row_date_le in Hall.
  by rewrite Hr, Hsb in Hall.
Qed.

(** C8, as amended. Whenever the fetch is invoked and raises, the error is
    logged and then the same error is raised to the caller; an invocation
    that raises does not write the store; and when the fetch returns, the
    invocation does not raise as long as the stored frame or the fetched
    frame has a [date] column. *)
Theorem scrape_and_update_fetch_failure
    {float : Type} `{EqDecision float}
    (self : AnbimaIRTSManager.t float) (date : Timestamp) (w : World float) :
  let run := scrape_and_update self date w in
  ∃ evs, trace run.2 = trace w ++ evs ∧
    (∀ e, Scrape date ∈ evs → scraper_scrape self date = Raise e →
       run.1 = Raise e ∧
       ∃ pre, evs = pre ++ [Scrape date; Log ERROR (ScrapingError e)]) ∧
    (raises run.1 →
       feather run.2 = feather w ∧ Forall (λ ev, is_write ev = false) evs) ∧
    (∀ new_data, scraper_scrape self date = Ok new_data →
       "date" ∈ columns new_data ∨ "date" ∈ columns (stored w) →
       ¬ raises run.1).
Proof.
  intros run.
  destruct (scrape_and_update_frame self date w) as (evs & Htr & Hframe).
  exists evs. split; [done|]. subst run.
  split; [|split].
  - intros e Hin Hfetch. revert Htr Hin. clear Hframe.
    rewrite scrape_and_update_run.
    assert (∀ existing pre,
      Forall quiet pre →
      trace (scrape_and_merge self date existing (add_events w pre)).2 = trace w ++ evs →
      (scrape_and_merge self date existing (add_events w pre)).1 = Raise e ∧
      ∃ pre', evs = pre' ++ [Scrape date; Log ERROR (ScrapingError e)]) as Hmerge.
    { intros existing pre Hpre. rewrite scrape_and_merge_run, Hfetch. simpl.
      rewrite <- app_assoc. intros Heq%app_inv_head. split; [done|].
      exists (pre ++ [Log INFO (StartingScrape date)]).
      by rewrite <- Heq, <- app_assoc. }
    assert (∀ pre, Forall quiet pre → evs = pre → Scrape date ∈ evs → False) as Hquiet.
    { intros pre Hpre -> Hin. rewrite Forall_forall in Hpre.
      by destruct (Hpre _ Hin) as [Hs _]. }
    destruct (rejection self (now w) date) as [msg|].
    { simpl. intros Heq%app_inv_head Hin. exfalso.
      eapply Hquiet; [|symmetry; exact Heq|done]. by repeat constructor. }
    destruct (feather w) as [df|]; simpl.
    + destruct (already_present date df).
      * simpl. rewrite <- app_assoc. intros Heq%app_inv_head Hin. exfalso.
        eapply Hquiet; [|symmetry; exact Heq|done]. by repeat constructor.
      * destruct (negb (empty df) && negb _).
        -- rewrite add_events_app. intros Heq _.
           eapply Hmerge; [|exact Heq]. by repeat constructor.
        -- intros Heq _. eapply Hmerge; [|exact Heq]. by repeat constructor.
    + intros Heq _. eapply Hmerge; [|exact Heq]. by repeat constructor.
  - intros [e He]. apply Hframe. by rewrite He.
  - intros new_data Hfetch Hcol [e He]. clear Htr Hframe. revert He.
    rewrite scrape_and_update_run.
    assert (∀ existing w0,
      "date" ∈ columns new_data ∨ "date" ∈ columns existing →
      (scrape_and_merge self date existing w0).1 ≠ Raise e) as Hmerge.
    { intros existing w0 Hc. rewrite scrape_and_merge_run, Hfetch.
      destruct (sort_values_date _) as [combined|e'] eqn:Hsort; [done|].
      apply sort_values_date_raises in Hsort. destruct Hsort as [_ Hno].
      exfalso. apply Hno. rewrite columns_drop_duplicates. simpl.
      apply elem_of_app.
      destruct (decide ("date" ∈ columns existing)) as [|Hn]; [by left | right].
      apply list_elem_of_filter. by destruct Hc. }
    unfold stored in Hcol.
    destruct (rejection self (now w) date) as [msg|]; [done|].
    destruct (feather w) as [df|]; simpl in *; [|by apply Hmerge].
    destruct (already_present date df); [done|].
    destruct (negb (empty df) && negb _); by apply Hmerge.
Qed.

(** C10. If the date passes validation, there is no stored file, and the
    document fetched for the date holds no parameter record, then
    [scrape_and_update] raises [KeyError] for the column [date] at the merge
    step, and nothing is written: it does not store an empty table and
    return [True]. *)
Theorem scrape_and_update_no_records
    {float : Type} `{EqDecision float}
    (cal : BRCal.t)
    (download : Timestamp → res (list AnbimaIRTSScraper.PARAMETRO))
    (float_of_string : string → option float)
    (date : Timestamp) (w : World float) :
  let self := {| calendar := cal;
                 scraper_scrape := AnbimaIRTSScraper.scrape download float_of_string |} in
  let run := scrape_and_update self date w in
  (_validate_date self date w).1 = Ok true →
  feather w = None →
  download date = Ok [] →
  run.1 = Raise (KeyError "date") ∧
  feather run.2 = None ∧
  ∃ evs, trace run.2 = trace w ++ evs ∧ Scrape date ∈ evs ∧
         Forall (λ ev, is_write ev = false) evs.
Proof.
  intros self run Hvalid Hf Hdl. subst run.
  rewrite validate_date_run in Hvalid. rewrite scrape_and_update_run.
  destruct (rejection self (now w) date); [done|].
  rewrite Hf, scrape_and_merge_run. simpl.
  unfold AnbimaIRTSScraper.scrape. rewrite Hdl. simpl.
  split; [done|]. split; [done|].
  rewrite <- app_assoc. eexists. split; [done|]. split.
  - simpl. apply elem_of_cons. right. apply elem_of_cons. right. by left.
  - by repeat constructor.
Qed.

(** ** The staleness window of [_validate_date] *)

Section Staleness.

Variable self : BRCal.t.

Lemma steps_before_S (t : Timestamp) (k : nat) (date : Timestamp) :
  steps_before self (S k) t = Ok date →
  ∃ d, steps_before self k t = Ok d ∧ BRCal.previous_business_day self d = Ok date.
Proof.
  simpl. destruct (steps_before self k t) as [d|e]; [|done].
  intros Hp. by exists d.
Qed.

(** Going back [k] steps from a day lands on a valid day, and the range
    from there to a valid day [e] has one more element per step. *)
Lemma steps_before_range (today : Timestamp) (k : nat) (date : Timestamp) :
  is_busday (BRCal._custom_bday self) (day_number today) = true →
  steps_before self k today = Ok date →
  day_number date <= day_number today ∧
  is_busday (BRCal._custom_bday self) (day_number date) = true ∧
  length (busdays_between (BRCal._custom_bday self) (day_number date) (day_number today)) = S k.
Proof.
  intros Hv. revert date. induction k as [|k IH]; intros date Hs.
  - injection Hs as <-. repeat split; [lia | done |].
    rewrite busdays_between_cons by (done || lia). simpl.
    rewrite busdays_between_nil; [done | intros; lia].
  - destruct (steps_before_S _ _ _ Hs) as (d & Hd & Hp).
    destruct (IH d Hd) as (Hle & Hvj & Hlen).
    destruct (previous_business_day_Ok self d date Hp) as (_ & p & -> & Hp' & Hvp & Hb).
    unfold midnight.
    rewrite day_number_combine by (pose proof ns_per_day_pos; lia).
    repeat split; [lia | done |].
    rewrite busdays_between_cons by (done || lia). simpl. f_equal.
    rewrite (busdays_between_split _ (p + 1) (day_number d)) by lia.
    rewrite (busdays_between_nil _ (p + 1) (day_number d - 1)); [done|].
    intros i Hi. apply Hb. lia.
Qed.

Lemma length_day_range_steps (today : Timestamp) (k : nat) (date : Timestamp) :
  is_on_offset (BRCal._custom_bday self) today = true →
  steps_before self k today = Ok date →
  length (BRCal.day_range self date today) = S k.
Proof.
  intros Hv Hs. destruct (steps_before_range today k date Hv Hs) as (_ & _ & Hlen).
  by rewrite day_range_spec, length_fmap.
Qed.

Lemma steps_before_le (t : Timestamp) (k : nat) (date : Timestamp) :
  steps_before self k t = Ok date → date <= t.
Proof.
  revert date. induction k as [|k IH]; intros date Hs.
  - injection Hs as <-. lia.
  - destruct (steps_before_S _ _ _ Hs) as (d & Hd & Hp).
    pose proof (IH d Hd). pose proof (previous_business_day_facts self d date Hp) as [Hlt _].
    lia.
Qed.

Lemma steps_before_business_day (t : Timestamp) (k : nat) (date : Timestamp) :
  BRCal.is_business_day self t = true →
  steps_before self k t = Ok date →
  BRCal.is_business_day self date = true.
Proof.
  intros Ht Hs. destruct k as [|k].
  - by injection Hs as <-.
  - destruct (steps_before_S _ _ _ Hs) as (d & Hd & Hp).
    by apply (previous_business_day_facts self d date).
Qed.

End Staleness.

Section Validation.

Context {float : Type} `{EqDecision float}.

Implicit Types (self : AnbimaIRTSManager.t float) (w : World float).

(** On a business day, a business date [k] steps back passes the
    staleness check exactly when [k <= 4]: the check compares the length
    of the range, which counts both ends. *)
Lemma rejection_steps self (clock : Timestamp) (k : nat) (date : Timestamp) :
  is_on_offset (BRCal._custom_bday (calendar self)) (BRCal.today clock) = true →
  steps_before (calendar self) k (BRCal.today clock) = Ok date →
  rejection self clock date
  = if (5 <=? k)%nat then Some (OlderThan5 date) else None.
Proof.
  intros Hv Hs. unfold rejection.
  rewrite (steps_before_business_day (calendar self) (BRCal.today clock) k date)
    by (done || apply is_busday_is_business_day; exact Hv).
  cbn [negb].
  destruct (Z.gtb_spec date (BRCal.today clock)) as [Hgt|_].
  { pose proof (steps_before_le (calendar self) (BRCal.today clock) k date Hs). lia. }
  rewrite (length_day_range_steps (calendar self) (BRCal.today clock) k date) by done.
  destruct (Nat.leb_spec 5 k), (Nat.ltb_spec 5 (S k)); (done || lia).
Qed.

(** A date of today with a time of day is turned down as a future date,
    though the same date at midnight is accepted. *)
Lemma rejection_time_of_day self (clock date : Timestamp) :
  day_number date = day_number clock →
  time_of_day date ≠ 0 →
  BRCal.is_business_day (calendar self) date = true →
  rejection self clock date = Some (InTheFuture date) ∧
  rejection self clock (normalize date) = None.
Proof.
  intros Hday Htod Hbd. unfold rejection, BRCal.today.
  assert (BRCal.is_business_day (calendar self) (normalize date) = true) as Hbd'.
  { unfold BRCal.is_business_day in *. by rewrite normalize_idemp. }
  rewrite Hbd, Hbd'. simpl.
  assert (normalize clock = normalize date) as Hn
    by (unfold normalize; by rewrite Hday).
  pose proof (normalize_spec date) as Hs.
  pose proof (time_of_day_range date) as Hr.
  split.
  - destruct (Z.gtb_spec date (normalize clock)) as [_|Hle]; [done | lia].
  - destruct (Z.gtb_spec (normalize date) (normalize clock)) as [Hgt|_]; [lia|].
    rewrite day_range_spec, length_fmap, !day_number_normalize, Hday.
    unfold busdays_between.
    replace (day_number clock - day_number clock + 1) with 1 by lia.
    change (seqZ (day_number clock) 1) with [day_number clock].
    pose proof (length_filter
      (λ k, is_busday (BRCal._custom_bday (calendar self)) k = true)
      [day_number clock]) as Hlen. simpl in Hlen.
    destruct (Nat.ltb_spec 5 (length (filter
      (λ k, is_busday (BRCal._custom_bday (calendar self)) k = true)
      [day_number clock]))); [lia | done].
Qed.

End Validation.

(** ** The claims at concrete inputs *)

Section Concrete.

Import Examples.

(** C2. [day_count] asks the instance for [bday_range], which a [BRCal]
    does not have: every call raises [AttributeError] where
    [len(day_range(a, b)) - 1], floored at 0, was to be returned. *)
Theorem day_count_raises (self : BRCal.t) (a b : Timestamp) :
  BRCal.day_count self a b = Raise (AttributeError "BRCal" "bday_range").
Proof. reflexivity. Qed.

(** C1. Today is Monday 2024-01-08 and no day is a holiday.  Monday
    2024-01-01 is a business day five business-day steps before today, and
    [_validate_date] turns it down as older than 5 business days; the
    date four steps back is the oldest one accepted. *)
Theorem validate_date_five_steps_rejected :
  let self := manager download_document in
  let w := fresh_world mon_2024_01_08_10h in
  BRCal.today (now w) = mon_2024_01_08 ∧
  steps_before no_holidays 5 mon_2024_01_08 = Ok mon_2024_01_01 ∧
  BRCal.is_business_day no_holidays mon_2024_01_01 = true ∧
  _validate_date self mon_2024_01_01 w
  = (Ok false, add_events w [Log WARNING (OlderThan5 mon_2024_01_01)]) ∧
  scrape_and_update self mon_2024_01_01 w
  = (Ok false, add_events w [Log WARNING (OlderThan5 mon_2024_01_01)]) ∧
  steps_before no_holidays 4 mon_2024_01_08 = Ok tue_2024_01_02 ∧
  _validate_date self tue_2024_01_02 w = (Ok true, w).
Proof. vm_compute. repeat split. Qed.

(** C9. Today is Monday 2024-01-08, 10:00.  The date 2024-01-08 09:00 is
    turned down as being in the future, while the same date normalized to
    midnight is accepted: the comparison with [today] is made on the
    instant, not on the calendar date. *)
Theorem validate_date_time_of_day_rejected :
  let self := manager download_document in
  let w := fresh_world mon_2024_01_08_10h in
  normalize mon_2024_01_08_09h = mon_2024_01_08 ∧
  _validate_date self mon_2024_01_08_09h w
  = (Ok false, add_events w [Log WARNING (InTheFuture mon_2024_01_08_09h)]) ∧
  _validate_date self (normalize mon_2024_01_08_09h) w = (Ok true, w).
Proof. vm_compute. repeat split. Qed.

(** With a time of day on the arguments the range is taken between their
    midnights: 10:00 is after 09:00 of the same Monday, and the range
    between them is that Monday. *)
Lemma day_range_with_time_of_day :
  mon_2024_01_08_10h > mon_2024_01_08_09h ∧
  BRCal.day_range no_holidays mon_2024_01_08_10h mon_2024_01_08_09h
  = [mon_2024_01_08] ∧
  mon_2024_01_08 < mon_2024_01_08_10h.
Proof. vm_compute. repeat split. Qed.

(** C5 as stated fails at the lower end of the [pd.Timestamp] range: with no
    holidays, the business day before Wednesday 1677-09-22 00:12:43 is
    Tuesday 1677-09-21 at midnight, which is before [pd.Timestamp.min], and
    the call raises instead of returning a date. *)
Lemma previous_business_day_out_of_bounds_counterexample :
  Timestamp_min <= wed_1677_09_22 <= Timestamp_max ∧
  Timestamp_min <= normalize wed_1677_09_22 ∧
  weekday wed_1677_09_22 = 2 ∧
  BRCal.previous_business_day no_holidays wed_1677_09_22 = Raise OutOfBoundsDatetime ∧
  ¬ ∃ r, BRCal.previous_business_day no_holidays wed_1677_09_22 = Ok r ∧
         r < wed_1677_09_22 ∧ BRCal.is_business_day no_holidays r = true.
Proof.
  assert (BRCal.previous_business_day no_holidays wed_1677_09_22
          = Raise OutOfBoundsDatetime) as Hr by (vm_compute; reflexivity).
  split; [vm_compute; split; discriminate|].
  split; [vm_compute; discriminate|].
  split; [vm_compute; reflexivity|].
  split; [exact Hr|].
  intros (r & Hok & _). rewrite Hr in Hok. discriminate.
Qed.

(** C8 as stated fails in one direction: with no stored file and a
    document without records, the fetch returns and the invocation raises. *)
Lemma raises_without_fetch_failure_counterexample :
  let self := manager download_nothing in
  let run := scrape_and_update self mon_2024_01_08 (fresh_world mon_2024_01_08_10h) in
  scraper_scrape self mon_2024_01_08 = Ok DataFrame_new ∧
  run.1 = Raise (KeyError "date") ∧
  ¬ (raises run.1 ↔ raises (scraper_scrape self mon_2024_01_08)).
Proof.
  vm_compute. repeat split.
  intros [Hr _]. destruct Hr as [e He]; [by eexists | discriminate].
Qed.

(** C5 at Tuesday 2024-01-02, with Monday 2024-01-01 before it. *)
Lemma previous_business_day_before_witness :
  ∃ r, BRCal.previous_business_day no_holidays tue_2024_01_02 = Ok r ∧
       r < tue_2024_01_02 ∧ BRCal.is_business_day no_holidays r = true.
Proof.
  apply (previous_business_day_before no_holidays tue_2024_01_02 mon_2024_01_01).
  - vm_compute. discriminate.
  - vm_compute. discriminate.
  - vm_compute. reflexivity.
  - vm_compute. reflexivity.
Defined.

(** C6 from Tuesday 2024-01-02 back to Monday 2024-01-01. *)
Lemma day_range_properties_witness :
  tue_2024_01_02 > mon_2024_01_01 ∧
  BRCal.day_range no_holidays tue_2024_01_02 mon_2024_01_01 = [].
Proof.
  assert (tue_2024_01_02 > mon_2024_01_01) as Hgt by (vm_compute; reflexivity).
  assert (time_of_day tue_2024_01_02 = 0) as Htod by (vm_compute; reflexivity).
  split; [exact Hgt|].
  exact (proj1 (day_range_properties no_holidays tue_2024_01_02 mon_2024_01_01 Htod) Hgt).
Defined.

(** C3 at a store that holds the rows of 2024-01-05. *)
Lemma scrape_and_update_idempotent_witness :
  let w := world_with_friday in
  let df := default DataFrame_new (feather w) in
  let run1 := scrape_and_update (manager download_document) fri_2024_01_05 w in
  let run2 := scrape_and_update (manager download_document) fri_2024_01_05
                (at_clock mon_2024_01_08_10h run1.2) in
  run1.1 = Ok false ∧
  feather run1.2 = Some df ∧
  nrows <$> feather run1.2 = nrows <$> feather w ∧
  (∃ evs, trace run1.2 = trace w ++ evs ∧ Forall quiet evs) ∧
  run2.1 = Ok false ∧
  feather run2.2 = feather run1.2 ∧
  (∃ evs, trace run2.2 = trace run1.2 ++ evs ∧ Forall quiet evs).
Proof.
  refine (scrape_and_update_idempotent (manager download_document)
            fri_2024_01_05 world_with_friday
            (default DataFrame_new (feather world_with_friday))
            mon_2024_01_08_10h _ _ _ _).
  - vm_compute. reflexivity.
  - vm_compute. reflexivity.
  - vm_compute. apply list_elem_of_here.
  - vm_compute. apply list_elem_of_here.
Defined.

(** C4 at the first run for 2024-01-05 on an empty store. *)
Lemma scrape_and_update_invariants_witness :
  ∃ df, feather world_with_friday = Some df ∧
        NoDup (rows df) ∧
        StronglySorted row_date_le (rows df) ∧
        StronglySorted Z.le (omap row_date (rows df)).
Proof.
  refine (scrape_and_update_invariants (manager download_document)
            fri_2024_01_05 (fresh_world mon_2024_01_08_10h) world_with_friday _).
  vm_compute. reflexivity.
Defined.

(** C8 at a run whose download fails, and at a run on a stored frame with
    a [date] column whose document holds no record. *)
Lemma scrape_and_update_fetch_failure_witness :
  let run := scrape_and_update (manager download_fails) mon_2024_01_08
               (fresh_world mon_2024_01_08_10h) in
  run.1 = Raise RequestException ∧ feather run.2 = None ∧
  ¬ raises (scrape_and_update (manager download_nothing) mon_2024_01_08
              world_with_friday).1.
Proof.
  intros run.
  destruct (scrape_and_update_fetch_failure (manager download_fails) mon_2024_01_08
              (fresh_world mon_2024_01_08_10h)) as (evs & Htr & Hfetch & Hstore & _).
  fold run in Htr, Hfetch, Hstore.
  assert (Scrape mon_2024_01_08 ∈ evs) as Hin.
  { vm_compute in Htr. rewrite <- Htr.
    do 2 apply list_elem_of_further. apply list_elem_of_here. }
  destruct (Hfetch RequestException Hin eq_refl) as [Hr _].
  split; [exact Hr|]. split; [apply Hstore; exists RequestException; exact Hr|].
  destruct (scrape_and_update_fetch_failure (manager download_nothing) mon_2024_01_08
              world_with_friday) as (evs' & _ & _ & _ & Hreturns).
  apply (Hreturns DataFrame_new eq_refl). right.
  vm_compute. apply list_elem_of_here.
Defined.

(** C10 at a run on an empty store whose document holds no record. *)
Lemma scrape_and_update_no_records_witness :
  let self := manager download_nothing in
  let run := scrape_and_update self mon_2024_01_08 (fresh_world mon_2024_01_08_10h) in
  run.1 = Raise (KeyError "date") ∧
  feather run.2 = None ∧
  ∃ evs, trace run.2 = trace (fresh_world mon_2024_01_08_10h) ++ evs ∧
         Scrape mon_2024_01_08 ∈ evs ∧
         Forall (λ ev, is_write ev = false) evs.
Proof.
  refine (scrape_and_update_no_records no_holidays download_nothing float_of_string
            mon_2024_01_08 (fresh_world mon_2024_01_08_10h) _ _ _).
  - vm_compute. reflexivity.
  - reflexivity.
  - reflexivity.
Defined.

End Concrete.

(** ** More on the calendar *)

Section CalendarMore.

Variable self : BRCal.t.

(** With date-only holidays, a business day is a day the offset accepts. *)
Lemma is_business_day_is_busday t :
  date_only_holidays self →
  BRCal.is_business_day self t = true →
  is_busday (BRCal._custom_bday self) (day_number t) = true.
Proof.
  intros Hdates Hbd. unfold BRCal.is_business_day in Hbd.
  apply andb_true_iff in Hbd. destruct Hbd as [Hwd Hh].
  apply bool_decide_eq_true in Hh.
  unfold is_busday, weekmask. apply andb_true_iff. split.
  - by rewrite weekday_normalize in Hwd.
  - apply bool_decide_eq_true. simpl. intros Hin.
    apply elem_of_map in Hin. destruct Hin as (h & Hday & Hh').
    apply Hh. replace (normalize t) with h; [done|].
    pose proof (combine_day_time h) as Hc. rewrite (Hdates h Hh') in Hc.
    unfold normalize. by rewrite Hday.
Qed.

Lemma day_number_midnight k : day_number (midnight k) = k.
Proof. apply day_number_combine. pose proof ns_per_day_pos. lia. Qed.

Lemma day_range_split_days a b c :
  day_number a <= day_number b + 1 <= day_number c + 1 →
  BRCal.day_range self a c
  = BRCal.day_range self a b
    ++ BRCal.day_range self (midnight (day_number b + 1)) c.
Proof.
  intros Hd. rewrite !day_range_spec, day_number_midnight.
  rewrite <- fmap_app. f_equal.
  rewrite (busdays_between_split _ (day_number a) (day_number b + 1) (day_number c))
    by lia.
  do 2 f_equal. lia.
Qed.

(** In a calendar without holidays the valid days are the weekdays. *)
Lemma is_busday_no_holidays k :
  BRCal._holidays self = ∅ →
  is_busday (BRCal._custom_bday self) k = (weekday_of_day k <? 5).
Proof.
  intros He. unfold is_busday, weekmask. simpl. rewrite He.
  rewrite set_map_empty. rewrite bool_decide_eq_true_2 by set_solver.
  apply andb_true_r.
Qed.

Lemma previous_weekday k :
  BRCal._holidays self = ∅ →
  prev_busday (BRCal._custom_bday self) k (k - days_back (weekday_of_day k)).
Proof.
  intros He. unfold prev_busday, last_busday_upto.
  setoid_rewrite (is_busday_no_holidays _ He).
  unfold days_back, weekday_of_day.
  destruct (Z.eqb_spec ((k + 3) `mod` 7) 0) as [H0|H0];
    [|destruct (Z.eqb_spec ((k + 3) `mod` 7) 6) as [H6|H6]].
  - repeat split; [lia | apply Z.ltb_lt | intros i Hi; apply Z.ltb_ge];
      Z.div_mod_to_equations; lia.
  - repeat split; [lia | apply Z.ltb_lt | intros i Hi; apply Z.ltb_ge];
      Z.div_mod_to_equations; lia.
  - repeat split; [lia | apply Z.ltb_lt | intros i Hi; apply Z.ltb_ge];
      Z.div_mod_to_equations; lia.
Qed.

(** Going back [k] steps returns as long as [k] valid days, none before
    the day of a [b] whose midnight is in the range, lie before the day of
    [t]; the valid days left before the date reached are [k] fewer. *)
Lemma steps_before_returns (t b : Timestamp) (k : nat) :
  Timestamp_min <= normalize b → t <= Timestamp_max →
  day_number b <= day_number t →
  (k <= length (busdays_between (BRCal._custom_bday self)
                  (day_number b) (day_number t - 1)))%nat →
  ∃ date, steps_before self k t = Ok date ∧ normalize b <= date ∧
    (length (busdays_between (BRCal._custom_bday self)
               (day_number b) (day_number t - 1))
     <= k + length (busdays_between (BRCal._custom_bday self)
                      (day_number b) (day_number date - 1)))%nat.
Proof.
  intros Hmin Hmax Hbt. induction k as [|k IH]; intros Hk.
  - exists t. split; [done|]. split; [|simpl; lia].
    apply Z.le_trans with (normalize t); [|apply normalize_le].
    by apply combine_le.
  - destruct IH as (d & Hd & Hbd & Hlen); [lia|].
    destruct (busdays_between (BRCal._custom_bday self)
                (day_number b) (day_number d - 1)) as [|j l] eqn:Hl;
      [simpl in Hlen; lia|].
    assert (j ∈ busdays_between (BRCal._custom_bday self)
                  (day_number b) (day_number d - 1)) as Hj
      by (rewrite Hl; apply list_elem_of_here).
    apply elem_of_busdays_between in Hj. destruct Hj as [Hjr Hjv].
    pose proof (steps_before_le self t k d Hd) as Hdt.
    destruct (previous_business_day_returns self d (midnight j)) as (r & Hr & Hjr');
      [ unfold normalize; rewrite day_number_midnight;
        apply Z.le_trans with (normalize b); [done|apply combine_le; lia]
      | lia
      | unfold is_on_offset; by rewrite day_number_midnight
      | rewrite day_number_midnight; lia |].
    exists r. simpl. rewrite Hd. simpl. split; [done|].
    unfold normalize in Hjr'. rewrite day_number_midnight in Hjr'.
    assert (normalize b <= midnight j) as Hbj by (apply combine_le; lia).
    split; [unfold midnight in *; lia|].
    destruct (previous_business_day_Ok self d r Hr) as (_ & p & -> & Hle & Hv & Hlast).
    rewrite day_number_midnight.
    assert (j <= p) as Hjp by (by apply (proj1 (combine_le _ _)) in Hjr').
    rewrite (busdays_between_split _ (day_number b) p (day_number d - 1)) in Hl by lia.
    rewrite (busdays_between_cons _ p) in Hl by (done || lia).
    rewrite (busdays_between_nil _ (p + 1)) in Hl by (intros i Hi; apply Hlast; lia).
    apply (f_equal length) in Hl. rewrite length_app in Hl. simpl in Hl.
    simpl in Hlen. lia.
Qed.

End CalendarMore.

(** ** More on the steps of [scrape_and_update] *)

Section RunsMore.

Context {float : Type} `{EqDecision float}.

Implicit Types (self : AnbimaIRTSManager.t float) (w : World float)
  (df : DataFrame float) (date : Timestamp).

(** Past validation and the check of the stored dates, the invocation is
    the fetch and merge on the stored frame. *)
Lemma scrape_and_update_cases self date w :
  scrape_and_update self date w =
  match rejection self (now w) date with
  | Some msg => (Ok false, add_events w [Log WARNING msg])
  | None =>
      if already_present date (stored w) then
        (Ok false, add_events w [ReadFeather;
                                 Log INFO (ExistingLoaded (nrows (stored w)));
                                 Log INFO (AlreadyPresent date)])
      else scrape_and_merge self date (stored w) (add_events w (load_prefix w))
  end.
Proof.
  rewrite scrape_and_update_run. unfold stored, load_prefix.
  destruct (rejection self (now w) date) as [msg|]; [done|].
  destruct (feather w) as [df|]; simpl.
  - destruct (already_present date df); [by rewrite add_events_app|].
    destruct (negb (empty df) && negb _); [by rewrite add_events_app|].
    done.
  - done.
Qed.

Lemma load_prefix_filter w :
  List.filter is_scrape (load_prefix w) = [] ∧
  List.filter is_write (load_prefix w) = [] ∧
  (length (List.filter is_read (load_prefix w)) <= 1)%nat.
Proof.
  unfold load_prefix. destruct (feather w) as [df|]; simpl; [|auto].
  destruct (negb (empty df) && negb _); simpl; auto.
Qed.

(** The last valid day before a day and that day: at most two valid days. *)
Lemma busdays_between_prev o j e :
  prev_busday o e j → (length (busdays_between o j e) <= 2)%nat.
Proof.
  intros (Hle & Hv & Hb).
  rewrite busdays_between_cons by (done || lia). simpl.
  rewrite (busdays_between_split o (j + 1) e e) by lia.
  rewrite (busdays_between_nil o (j + 1) (e - 1)) by (intros i Hi; apply Hb; lia).
  simpl. unfold busdays_between. replace (e - e + 1) with 1 by lia.
  change (seqZ e 1) with [e].
  pose proof (length_filter (λ k, is_busday o k = true) [e]) as Hlen.
  simpl in Hlen. lia.
Qed.

Lemma rejection_previous_business_day self (clock date : Timestamp) :
  BRCal.previous_business_day (calendar self) (BRCal.today clock) = Ok date →
  rejection self clock date = None.
Proof.
  intros Hp. unfold rejection.
  destruct (previous_business_day_facts (calendar self) (BRCal.today clock) date Hp)
    as [Hlt Hbd].
  rewrite Hbd. cbn [negb].
  destruct (Z.gtb_spec date (BRCal.today clock)) as [Hgt|_]; [lia|].
  destruct (previous_business_day_Ok (calendar self) (BRCal.today clock) date Hp)
    as (_ & j & -> & Hprev).
  rewrite day_range_spec, length_fmap, day_number_midnight.
  pose proof (busdays_between_prev _ _ _ Hprev) as Hlen.
  destruct (Nat.ltb_spec 5 (length (busdays_between
    (BRCal._custom_bday (calendar self)) j (day_number (BRCal.today clock)))));
    [lia | done].
Qed.

End RunsMore.

Section MergeMore.

Context {float : Type} `{EqDecision float}.

Lemma drop_seen_length (seen l : list (Row float)) :
  (length (drop_seen seen l) <= length l)%nat.
Proof.
  revert seen. induction l as [|r l IH]; intros seen; simpl; [lia|].
  destruct (bool_decide (r ∈ seen)); simpl.
  - specialize (IH seen). lia.
  - specialize (IH (r :: seen)). lia.
Qed.

(** The merged frame has the columns of the concatenation and no more rows
    than it. *)
Lemma merged_frame_size (df sorted : DataFrame float) :
  sort_values_date (drop_duplicates df) = Ok sorted →
  columns sorted = columns df ∧ (nrows sorted <= nrows df)%nat.
Proof.
  unfold sort_values_date. rewrite columns_drop_duplicates.
  destruct (bool_decide ("date" ∈ columns df)); [|done].
  intros [= <-]. simpl. split; [done|].
  unfold nrows. simpl. rewrite merge_sort_Permutation.
  unfold drop_duplicates. destruct (empty df); simpl; [lia|].
  apply drop_seen_length.
Qed.

Lemma load_prefix_no_effect (w : World float) (e : event float) :
  e ∈ load_prefix w → is_scrape e = false ∧ is_write e = false.
Proof.
  unfold load_prefix. destruct (feather w) as [df|].
  - destruct (negb (empty df) && negb _); simpl;
      rewrite !elem_of_cons, elem_of_nil; intros Hin;
      repeat (destruct Hin as [-> | Hin]; [done|]); done.
  - simpl. rewrite !elem_of_cons, elem_of_nil. intros [-> | []]. done.
Qed.

End MergeMore.

(** ** More on the scraper *)

Section ScraperMore.

Context {float : Type}.
Variable float_of_string : string → option float.

Import AnbimaIRTSScraper.

Lemma convert_raises value e :
  convert float_of_string value = Raise e → ∃ text, e = ValueError text.
Proof.
  unfold convert. destruct value as [[|c s]|]; [done| |done].
  destruct (float_of_string _); [done|]. intros [= <-]. by eexists.
Qed.

Lemma convert_refused s :
  s ≠ EmptyString → float_of_string (replace_comma s) = None →
  convert float_of_string (Some s) = Raise (ValueError (replace_comma s)).
Proof.
  intros Hs Hf. unfold convert. destruct s as [|c s]; [done|]. by rewrite Hf.
Qed.

(** What a parsed record holds, cell by cell. *)
Lemma parse_param_fields date parametro (r : Row float) :
  parse_param float_of_string date parametro = Ok r →
  row_date r = Some date ∧
  row_type r = rename_type (Grupo parametro) ∧
  convert float_of_string (B1 parametro) = Ok (b1 r) ∧
  convert float_of_string (B2 parametro) = Ok (b2 r) ∧
  convert float_of_string (B3 parametro) = Ok (b3 r) ∧
  convert float_of_string (B4 parametro) = Ok (b4 r) ∧
  convert float_of_string (L1 parametro) = Ok (l1 r) ∧
  convert float_of_string (L2 parametro) = Ok (l2 r).
Proof.
  unfold parse_param.
  destruct (convert float_of_string (B1 parametro)); simpl; [|done].
  destruct (convert float_of_string (B2 parametro)); simpl; [|done].
  destruct (convert float_of_string (B3 parametro)); simpl; [|done].
  destruct (convert float_of_string (B4 parametro)); simpl; [|done].
  destruct (convert float_of_string (L1 parametro)); simpl; [|done].
  destruct (convert float_of_string (L2 parametro)); simpl; [|done].
  intros [= <-]. simpl. by repeat split.
Qed.

Lemma parse_param_raises date parametro e :
  parse_param float_of_string date parametro = Raise e → ∃ text, e = ValueError text.
Proof.
  unfold parse_param.
  destruct (convert float_of_string (B1 parametro)) eqn:H1; simpl;
    [|intros [= <-]; by eapply convert_raises].
  destruct (convert float_of_string (B2 parametro)) eqn:H2; simpl;
    [|intros [= <-]; by eapply convert_raises].
  destruct (convert float_of_string (B3 parametro)) eqn:H3; simpl;
    [|intros [= <-]; by eapply convert_raises].
  destruct (convert float_of_string (B4 parametro)) eqn:H4; simpl;
    [|intros [= <-]; by eapply convert_raises].
  destruct (convert float_of_string (L1 parametro)) eqn:H5; simpl;
    [|intros [= <-]; by eapply convert_raises].
  destruct (convert float_of_string (L2 parametro)) eqn:H6; simpl;
    [|intros [= <-]; by eapply convert_raises].
  done.
Qed.

Lemma parse_param_refused date parametro attr s :
  attr ∈ numeric_attributes → attr parametro = Some s →
  s ≠ EmptyString → float_of_string (replace_comma s) = None →
  ∃ text, parse_param float_of_string date parametro = Raise (ValueError text).
Proof.
  intros Hattr Hs Hne Hf.
  destruct (parse_param float_of_string date parametro) as [r|e] eqn:Hp.
  - exfalso. apply parse_param_fields in Hp.
    destruct Hp as (_ & _ & H1 & H2 & H3 & H4 & H5 & H6).
    pose proof (convert_refused s Hne Hf) as Hc.
    unfold numeric_attributes in Hattr.
    rewrite !elem_of_cons, elem_of_nil in Hattr.
    destruct Hattr as [->|[->|[->|[->|[->|[->|[]]]]]]];
      rewrite Hs in *; congruence.
  - destruct (parse_param_raises _ _ _ Hp) as [text ->]. by eexists.
Qed.

Lemma res_map_raises {A B} (f : A → res B) (l : list A) (x : A) (P : exn → Prop) :
  (∀ y e, f y = Raise e → P e) →
  x ∈ l → (∃ e, f x = Raise e) →
  ∃ e, res_map f l = Raise e ∧ P e.
Proof.
  intros HP Hin [e He]. induction l as [|y l IH]; [by apply elem_of_nil in Hin|].
  simpl. destruct (f y) as [b|e'] eqn:Hy; simpl.
  - apply elem_of_cons in Hin. destruct Hin as [->|Hin]; [congruence|].
    destruct (IH Hin) as (e'' & -> & HPe). simpl. eauto.
  - exists e'. split; [done|]. by eapply HP.
Qed.

End ScraperMore.

(** ** The retry loop *)

Section RetryLoop.

Context {content err : Type}.
Variable post : nat → Download.attempt_result content err.

Import Download.

(** The events of [k] failed attempts from attempt [a] on, each followed
    by its sleep. *)
Lemma retry_loop_decided max_retries a n k :
  (k < n)%nat → (a + k < max_retries)%nat →
  (∀ j, (a <= j < a + k)%nat → ∃ e, post j = RequestFailed e) →
  retry_loop post max_retries (seq a n) =
  match post (a + k)%nat with
  | Responded c =>
      (Returned c, flat_map (λ j, [Post j; Sleep 1]) (seq a k) ++ [Post (a + k)%nat])
  | OtherFailure e =>
      (Raised e, flat_map (λ j, [Post j; Sleep 1]) (seq a k) ++ [Post (a + k)%nat])
  | RequestFailed e =>
      if (a + k <? max_retries - 1)%nat then
        let '(r, evs) := retry_loop post max_retries (seq (S (a + k)) (n - S k)) in
        (r, flat_map (λ j, [Post j; Sleep 1]) (seq a (S k)) ++ evs)
      else (Raised e, flat_map (λ j, [Post j; Sleep 1]) (seq a k) ++ [Post (a + k)%nat])
  end.
Proof.
  revert a n. induction k as [|k IH]; intros a n Hk Hmax Hfail.
  - destruct n as [|n]; [lia|]. simpl. rewrite Nat.add_0_r, Nat.sub_0_r.
    destruct (post a); try done;
      destruct (a <? max_retries - 1)%nat; try done;
      by destruct (retry_loop post max_retries (seq (S a) n)).
  - destruct n as [|n]; [lia|]. simpl.
    destruct (Hfail a ltac:(lia)) as [e0 ->].
    destruct (Nat.ltb_spec a (max_retries - 1)) as [_|Hge]; [|lia].
    rewrite (IH (S a) n) by (try lia; intros j Hj; apply Hfail; lia).
    replace (S a + k)%nat with (a + S k)%nat by lia.
    replace (n - S k)%nat with (S n - S (S k))%nat by lia.
    destruct (post (a + S k)%nat); try done;
      destruct (a + S k <? max_retries - 1)%nat; try done;
      by destruct (retry_loop post max_retries (seq (S (a + S k)) (S n - S (S k)))).
Qed.

(** Counting the events of the loop over the attempts up to the last. *)
Lemma retry_loop_counts max_retries a n :
  (a + n = max_retries)%nat → (0 < n)%nat →
  let run := retry_loop post max_retries (seq a n) in
  run.1 ≠ ReturnedNone ∧
  (1 <= length (List.filter is_post run.2) <= n)%nat ∧
  (length (List.filter is_sleep run.2) + 1 = length (List.filter is_post run.2))%nat ∧
  (∀ s, Sleep s ∈ run.2 → s = 1%nat).
Proof.
  revert a. induction n as [|n IH]; intros a Hmax Hn; [lia|].
  simpl. destruct (post a) as [c|e|e]; simpl.
  - repeat split; try done; try lia. intros s Hs.
    apply elem_of_cons in Hs. destruct Hs as [Hs|Hs]; [done|].
    by apply elem_of_nil in Hs.
  - destruct (Nat.ltb_spec a (max_retries - 1)) as [Hlt|Hge].
    + destruct (IH (S a) ltac:(lia) ltac:(lia)) as (Hr & Hp & Hs & Hone).
      destruct (retry_loop post max_retries (seq (S a) n)) as [r evs].
      simpl in *. repeat split; try done; try lia.
      intros s Hin. apply elem_of_cons in Hin. destruct Hin as [Hin|Hin]; [done|].
      apply elem_of_cons in Hin. destruct Hin as [Hin|Hin]; [congruence|].
      by apply Hone.
    + simpl. repeat split; try done; try lia. intros s Hs.
      apply elem_of_cons in Hs. destruct Hs as [Hs|Hs]; [done|].
      by apply elem_of_nil in Hs.
  - repeat split; try done; try lia. intros s Hs.
    apply elem_of_cons in Hs. destruct Hs as [Hs|Hs]; [done|].
    by apply elem_of_nil in Hs.
Qed.

End RetryLoop.

(** ** Further properties of the calendar *)

(** X1. When every holiday is a date without a time of day, [day_range a b]
    holds exactly the midnights from the day of [a] to the day of [b] that
    are business days: no business day in between is left out. *)
Theorem day_range_members (self : BRCal.t) (a b x : Timestamp) :
  date_only_holidays self →
  x ∈ BRCal.day_range self a b ↔
  time_of_day x = 0 ∧ normalize a <= x <= normalize b ∧
  BRCal.is_business_day self x = true.
Proof.
  intros Hdates. split.
  - intros Hx. destruct (day_range_bounds self a b x Hx) as [Hbd Hb].
    apply elem_of_day_range in Hx. destruct Hx as (k & -> & _ & _).
    split; [|done]. apply time_of_day_combine. pose proof ns_per_day_pos. lia.
  - intros (Htod & [Hlo Hhi] & Hbd). apply elem_of_day_range.
    exists (day_number x). split; [|split].
    + pose proof (combine_day_time x) as Hc. rewrite Htod in Hc. done.
    + pose proof (day_number_mono _ _ Hlo). pose proof (day_number_mono _ _ Hhi).
      rewrite !day_number_normalize in *. lia.
    + by apply is_business_day_is_busday.
Qed.

(** X2. When some day the offset accepts lies before the day of [d] and has
    its midnight at or after [pd.Timestamp.min], [previous_business_day d]
    returns the latest such day: its result is a midnight before [d], the
    offset accepts it, it is at or after that day, and no instant on a day
    strictly between it and [d] is on the offset. *)
Theorem previous_business_day_latest (self : BRCal.t) (d b : Timestamp) :
  Timestamp_min <= normalize b → d <= Timestamp_max →
  is_on_offset (BRCal._custom_bday self) b = true →
  day_number b < day_number d →
  ∃ r, BRCal.previous_business_day self d = Ok r ∧
       time_of_day r = 0 ∧ r < d ∧ normalize b <= r ∧
       is_on_offset (BRCal._custom_bday self) r = true ∧
       ∀ x, day_number r < day_number x < day_number d →
            is_on_offset (BRCal._custom_bday self) x = false.
Proof.
  intros Hmin Hmax Hon Hlt.
  destruct (previous_business_day_returns self d b Hmin Hmax Hon Hlt) as (r & Hr & Hb).
  exists r. split; [done|].
  destruct (previous_business_day_facts self d r Hr) as [Hrd _].
  destruct (previous_business_day_Ok self d r Hr) as (_ & j & -> & Hle & Hv & Hlast).
  unfold is_on_offset. rewrite day_number_midnight.
  repeat split; try done.
  - apply time_of_day_combine. pose proof ns_per_day_pos. lia.
  - intros x Hx. apply Hlast. lia.
Qed.

(** X3. A day the business-day offset accepts is a business day for
    [is_business_day]; when every holiday is a date without a time of day
    the two agree on every timestamp. *)
Theorem is_business_day_agrees_with_offset (self : BRCal.t) (t : Timestamp) :
  (is_on_offset (BRCal._custom_bday self) t = true →
   BRCal.is_business_day self t = true) ∧
  (date_only_holidays self →
   BRCal.is_business_day self t = is_on_offset (BRCal._custom_bday self) t).
Proof.
  split; [apply is_busday_is_business_day|].
  intros Hdates. unfold is_on_offset.
  destruct (BRCal.is_business_day self t) eqn:Hbd.
  - symmetry. by apply is_business_day_is_busday.
  - destruct (is_busday (BRCal._custom_bday self) (day_number t)) eqn:Hv; [|done].
    apply is_busday_is_business_day in Hv. congruence.
Qed.

(** X4. With an empty holiday set (as after a failed download of the
    holidays) and a date [d] whose midnight is in the [pd.Timestamp] range,
    [previous_business_day d] goes to the midnight one day before the day of
    [d], two days before when [d] is a Sunday and three when it is a Monday:
    it returns that midnight when it is at or after [pd.Timestamp.min], and
    raises [OutOfBoundsDatetime] when it is not. *)
Theorem previous_business_day_weekdays (self : BRCal.t) (d : Timestamp) :
  BRCal._holidays self = ∅ →
  Timestamp_min <= normalize d → d <= Timestamp_max →
  let r := midnight (day_number d - days_back (weekday d)) in
  (Timestamp_min <= r → BRCal.previous_business_day self d = Ok r) ∧
  (r < Timestamp_min → BRCal.previous_business_day self d = Raise OutOfBoundsDatetime).
Proof.
  intros He Hmin Hmax r.
  unfold BRCal.previous_business_day, to_Timestamp. simpl.
  destruct (previous_business_day_spec self d) as (j & -> & Hj).
  assert (j = day_number d - days_back (weekday d)) as ->.
  { eapply last_busday_upto_unique; [exact Hj|]. by apply previous_weekday. }
  fold r.
  assert (r < d) as Hrd.
  { apply Z.lt_le_trans with (normalize d); [|apply normalize_le].
    apply combine_lt. unfold days_back. repeat case_match; lia. }
  split; intros Hr.
  - by rewrite bool_decide_eq_true_2 by lia.
  - by rewrite bool_decide_eq_false_2 by lia.
Qed.

(** X5. Ranges compose: for a day of [b] from the day before [a]'s to the
    day of [c], the range from [a] to [c] is the range from [a] to [b]
    followed by the range from the day after [b] to [c]. *)
Theorem day_range_concat (self : BRCal.t) (a b c : Timestamp) :
  day_number a <= day_number b + 1 <= day_number c + 1 →
  BRCal.day_range self a c
  = BRCal.day_range self a b
    ++ BRCal.day_range self (midnight (day_number b + 1)) c.
Proof. apply day_range_split_days. Qed.

(** X6. When [today] is on the offset, the range from the date [k]
    business-day steps before it up to [today] has [k + 1] elements. *)
Theorem day_range_steps_length (self : BRCal.t) (today : Timestamp) (k : nat)
    (date : Timestamp) :
  is_on_offset (BRCal._custom_bday self) today = true →
  steps_before self k today = Ok date →
  length (BRCal.day_range self date today) = S k.
Proof. apply length_day_range_steps. Qed.

(** X25. [k] applications of [previous_business_day] starting from [t]
    return a date whenever at least [k] days the offset accepts lie from the
    day of some [b], whose midnight is at or after [pd.Timestamp.min], to the
    day before [t]; the date reached is between the midnight of [b] and
    [t]. *)
Theorem steps_before_in_range (self : BRCal.t) (t b : Timestamp) (k : nat) :
  Timestamp_min <= normalize b → t <= Timestamp_max →
  day_number b <= day_number t →
  (k <= length (busdays_between (BRCal._custom_bday self)
                  (day_number b) (day_number t - 1)))%nat →
  ∃ date, steps_before self k t = Ok date ∧ normalize b <= date <= t.
Proof.
  intros Hmin Hmax Hbt Hk.
  destruct (steps_before_returns self t b k Hmin Hmax Hbt Hk) as (date & Hd & Hb & _).
  exists date. split; [done|]. split; [done|].
  by apply (steps_before_le self t k).
Qed.

Section CalendarWitnesses.

Import Examples MoreExamples.

Lemma day_range_members_witness :
  tue_2024_01_02 ∈ BRCal.day_range new_year mon_2024_01_01 fri_2024_01_05 ↔
  time_of_day tue_2024_01_02 = 0 ∧
  normalize mon_2024_01_01 <= tue_2024_01_02 <= normalize fri_2024_01_05 ∧
  BRCal.is_business_day new_year tue_2024_01_02 = true.
Proof.
  apply (day_range_members new_year mon_2024_01_01 fri_2024_01_05 tue_2024_01_02).
  intros h Hh. simpl in Hh. apply elem_of_singleton in Hh. subst h. reflexivity.
Defined.

Lemma previous_business_day_latest_witness :
  ∃ r, BRCal.previous_business_day new_year wed_2024_01_03 = Ok r ∧
       time_of_day r = 0 ∧ r < wed_2024_01_03 ∧ normalize tue_2024_01_02 <= r ∧
       is_on_offset (BRCal._custom_bday new_year) r = true ∧
       ∀ x, day_number r < day_number x < day_number wed_2024_01_03 →
            is_on_offset (BRCal._custom_bday new_year) x = false.
Proof.
  apply (previous_business_day_latest new_year wed_2024_01_03 tue_2024_01_02).
  - vm_compute. discriminate.
  - vm_compute. discriminate.
  - vm_compute. reflexivity.
  - vm_compute. reflexivity.
Defined.

Lemma is_business_day_agrees_with_offset_witness :
  BRCal.is_business_day new_year mon_2024_01_08_10h
  = is_on_offset (BRCal._custom_bday new_year) mon_2024_01_08_10h.
Proof.
  apply (is_business_day_agrees_with_offset new_year mon_2024_01_08_10h).
  intros h Hh. simpl in Hh. apply elem_of_singleton in Hh. subst h. reflexivity.
Defined.

Lemma previous_business_day_weekdays_witness :
  BRCal.previous_business_day (BRCalInit.__init__ BRCalInit.RequestFailure)
    mon_2024_01_08_10h
  = Ok fri_2024_01_05.
Proof.
  apply (previous_business_day_weekdays (BRCalInit.__init__ BRCalInit.RequestFailure)
           mon_2024_01_08_10h).
  - reflexivity.
  - vm_compute. discriminate.
  - vm_compute. discriminate.
  - vm_compute. discriminate.
Defined.

Lemma day_range_concat_witness :
  BRCal.day_range new_year mon_2024_01_01 mon_2024_01_08
  = BRCal.day_range new_year mon_2024_01_01 wed_2024_01_03
    ++ BRCal.day_range new_year (midnight (day_number wed_2024_01_03 + 1)) mon_2024_01_08.
Proof.
  apply (day_range_concat new_year mon_2024_01_01 wed_2024_01_03 mon_2024_01_08).
  vm_compute. split; discriminate.
Defined.

Lemma day_range_steps_length_witness :
  length (BRCal.day_range new_year wed_2024_01_03 mon_2024_01_08) = 4%nat.
Proof.
  apply (day_range_steps_length new_year mon_2024_01_08 3 wed_2024_01_03).
  - vm_compute. reflexivity.
  - vm_compute. reflexivity.
Defined.

Lemma steps_before_in_range_witness :
  ∃ date, steps_before new_year 3 mon_2024_01_08 = Ok date ∧
          normalize tue_2024_01_02 <= date <= mon_2024_01_08.
Proof.
  apply (steps_before_in_range new_year mon_2024_01_08 tue_2024_01_02 3).
  - vm_compute. discriminate.
  - vm_compute. discriminate.
  - vm_compute. discriminate.
  - vm_compute. lia.
Defined.

End CalendarWitnesses.

(** ** Further properties of the manager *)

(** Membership in a list that is written out. *)
Ltac listed :=
  repeat match goal with
  | H : _ ∈ _ :: _ |- _ => apply elem_of_cons in H; destruct H as [H|H]
  | H : _ ∈ [] |- _ => by apply elem_of_nil in H
  end;
  first [ done | congruence
        | apply elem_of_app; right;
          repeat first [apply list_elem_of_here | apply list_elem_of_further]
        | repeat first [apply list_elem_of_here | apply list_elem_of_further] ].

(** X7. On a day that is on the offset, [_validate_date] accepts the date
    [k] business-day steps before today exactly when [k] is below 5: the
    staleness check counts both ends of the range. *)
Theorem validate_date_window
    {float : Type} `{EqDecision float}
    (self : AnbimaIRTSManager.t float) (w : World float) (k : nat)
    (date : Timestamp) :
  is_on_offset (BRCal._custom_bday (calendar self)) (BRCal.today (now w)) = true →
  steps_before (calendar self) k (BRCal.today (now w)) = Ok date →
  (_validate_date self date w).1 = Ok (k <? 5)%nat.
Proof.
  intros Hv Hs. rewrite validate_date_run, (rejection_steps _ _ k) by done.
  destruct (Nat.leb_spec 5 k), (Nat.ltb_spec k 5); (done || lia).
Qed.

(** X8. The script takes the business day before today from a calendar
    [brcal] of its own.  When the manager's calendar holds the same
    holidays, that date passes [_validate_date] of the manager, and without
    a warning: it is a business day, not after today, and the range from it
    to today has at most two elements. *)
Theorem validate_date_previous_business_day
    {float : Type} `{EqDecision float}
    (brcal : BRCal.t) (AIRTSM : AnbimaIRTSManager.t float) (w : World float)
    (date : Timestamp) :
  BRCal._holidays (calendar AIRTSM) = BRCal._holidays brcal →
  BRCal.previous_business_day brcal (BRCal.today (now w)) = Ok date →
  _validate_date AIRTSM date w = (Ok true, w).
Proof.
  intros Hh Hp.
  assert (brcal = calendar AIRTSM) as ->.
  { destruct brcal, (calendar AIRTSM). simpl in Hh. by subst. }
  by rewrite validate_date_run, (rejection_previous_business_day _ _ date).
Qed.

(** X9. One invocation of [scrape_and_update] reads the stored file at most
    once, fetches at most once and writes at most once; it writes exactly
    when it returns [True], the frame written is the one stored afterwards,
    and in every other case the stored file is as before. *)
Theorem scrape_and_update_effects
    {float : Type} `{EqDecision float}
    (self : AnbimaIRTSManager.t float) (date : Timestamp) (w : World float) :
  let run := scrape_and_update self date w in
  ∃ evs, trace run.2 = trace w ++ evs ∧
    (length (List.filter is_read evs) <= 1)%nat ∧
    (length (List.filter is_scrape evs) <= 1)%nat ∧
    (length (List.filter is_write evs) <= 1)%nat ∧
    (run.1 = Ok true ↔ ∃ df, ToFeather df ∈ evs) ∧
    (∀ df, ToFeather df ∈ evs → feather run.2 = Some df) ∧
    (run.1 ≠ Ok true → feather run.2 = feather w).
Proof.
  intros run. subst run. rewrite scrape_and_update_cases.
  destruct (rejection self (now w) date) as [msg|].
  { eexists. split; [done|]. simpl. repeat split; try lia; try done.
    - intros [df Hin]. listed.
    - intros df Hin. listed. }
  destruct (already_present date (stored w)).
  { eexists. split; [done|]. simpl. repeat split; try lia; try done.
    - intros [df Hin]. listed.
    - intros df Hin. listed. }
  rewrite scrape_and_merge_run.
  destruct (load_prefix_filter w) as (Hs & Hw & Hr).
  pose proof (load_prefix_no_effect w) as Hpre.
  assert (∀ df, ToFeather df ∉ load_prefix w) as Hnw.
  { intros df Hin. by destruct (Hpre _ Hin). }
  destruct (scraper_scrape self date) as [new_data|e]; simpl.
  - destruct (sort_values_date _) as [combined|e]; simpl.
    + rewrite <- app_assoc. eexists. split; [done|].
      rewrite !List.filter_app, Hs, Hw, !length_app. simpl.
      repeat split; try lia; try done.
      * intros _. exists combined. listed.
      * intros df Hin. apply elem_of_app in Hin. destruct Hin as [Hin|Hin].
        { by apply Hnw in Hin. }
        listed.
    + rewrite <- app_assoc. eexists. split; [done|].
      rewrite !List.filter_app, Hs, Hw, !length_app. simpl.
      repeat split; try lia; try done.
      * intros [df Hin]. apply elem_of_app in Hin. destruct Hin as [Hin|Hin].
        { by apply Hnw in Hin. }
        listed.
      * intros df Hin. apply elem_of_app in Hin. destruct Hin as [Hin|Hin].
        { by apply Hnw in Hin. }
        listed.
  - rewrite <- app_assoc. eexists. split; [done|].
    rewrite !List.filter_app, Hs, Hw, !length_app. simpl.
    repeat split; try lia; try done.
    + intros [df Hin]. apply elem_of_app in Hin. destruct Hin as [Hin|Hin].
      { by apply Hnw in Hin. }
      listed.
    + intros df Hin. apply elem_of_app in Hin. destruct Hin as [Hin|Hin].
      { by apply Hnw in Hin. }
      listed.
Qed.

(** X10. [scrape_and_update] raises nothing but the error of the fetch, or
    [KeyError] for [date] when neither the stored frame nor the fetched one
    has a [date] column. *)
Theorem scrape_and_update_raises_only
    {float : Type} `{EqDecision float}
    (self : AnbimaIRTSManager.t float) (date : Timestamp) (w : World float)
    (e : exn) :
  (scrape_and_update self date w).1 = Raise e →
  scraper_scrape self date = Raise e ∨
  (e = KeyError "date" ∧
   (∃ new_data, scraper_scrape self date = Ok new_data ∧
      ("date" ∉ columns new_data) ∧ ("date" ∉ columns (stored w)))).
Proof.
  rewrite scrape_and_update_cases.
  destruct (rejection self (now w) date) as [msg|]; [done|].
  destruct (already_present date (stored w)); [done|].
  rewrite scrape_and_merge_run.
  destruct (scraper_scrape self date) as [new_data|e']; simpl.
  - destruct (sort_values_date _) as [combined|e'] eqn:Hsort; simpl; [done|].
    intros [= ->]. right.
    apply sort_values_date_raises in Hsort. destruct Hsort as [-> Hno].
    split; [done|]. exists new_data. split; [done|].
    rewrite columns_drop_duplicates in Hno. simpl in Hno.
    rewrite elem_of_app, list_elem_of_filter in Hno. tauto.
  - intros [= ->]. by left.
Qed.

(** X11. After an invocation that returns [True], a row is in the stored
    frame exactly when it was stored before or was fetched: no row is lost
    and none is made up.  The stored frame has the columns of both frames
    and no more rows than the two together. *)
Theorem merge_keeps_every_row
    {float : Type} `{EqDecision float}
    (self : AnbimaIRTSManager.t float) (date : Timestamp) (w w' : World float)
    (new_data : DataFrame float) :
  scrape_and_update self date w = (Ok true, w') →
  scraper_scrape self date = Ok new_data →
  ∃ df, feather w' = Some df ∧
    (∀ r, r ∈ rows df ↔ r ∈ rows (stored w) ∨ r ∈ rows new_data) ∧
    columns df = columns (concat (stored w) new_data) ∧
    (nrows df <= nrows (stored w) + nrows new_data)%nat.
Proof.
  intros Hrun Hfetch.
  destruct (success_inversion _ _ _ _ Hrun) as (new' & df & Hf' & Hsort & Hfe & _).
  rewrite Hfetch in Hf'. injection Hf' as <-.
  exists df. split; [done|].
  destruct (merged_frame_invariants _ _ Hsort) as (_ & _ & _ & Hrows).
  destruct (merged_frame_size _ _ Hsort) as (Hcols & Hlen).
  split; [|split; [done|]].
  - intros r. rewrite Hrows. simpl. apply elem_of_app.
  - unfold nrows in *. simpl in Hlen. rewrite length_app in Hlen. exact Hlen.
Qed.

(** X12. A stored frame that has rows and no [date] column does not stop the
    scrape: for a date that passes validation the invocation logs the
    warning and goes on to the fetch, and it returns [True] when the fetched
    frame has a [date] column. *)
Theorem schema_drift_proceeds
    {float : Type} `{EqDecision float}
    (self : AnbimaIRTSManager.t float) (date : Timestamp) (w : World float)
    (df : DataFrame float) :
  (_validate_date self date w).1 = Ok true →
  feather w = Some df →
  empty df = false →
  "date" ∉ columns df →
  let run := scrape_and_update self date w in
  (∃ evs, trace run.2
          = trace w ++ [ReadFeather; Log INFO (ExistingLoaded (nrows df));
                        Log WARNING NoDateColumn;
                        Log INFO (StartingScrape date); Scrape date] ++ evs) ∧
  (∀ new_data, scraper_scrape self date = Ok new_data →
     "date" ∈ columns new_data → run.1 = Ok true).
Proof.
  intros Hvalid Hf Hemp Hcol run. subst run.
  rewrite validate_date_run in Hvalid. rewrite scrape_and_update_run.
  destruct (rejection self (now w) date); [done|].
  rewrite Hf. simpl. unfold already_present. rewrite Hemp. simpl.
  rewrite (bool_decide_eq_false_2 _ Hcol). simpl.
  rewrite scrape_and_merge_run.
  destruct (scraper_scrape self date) as [new_data|e]; simpl.
  - destruct (sort_values_date _) as [combined|e] eqn:Hsort; simpl.
    + split; [rewrite <- !app_assoc; by eexists|]. done.
    + split; [rewrite <- !app_assoc; by eexists|].
      intros new' [= <-] Hnew. exfalso.
      apply sort_values_date_raises in Hsort. destruct Hsort as [_ Hno].
      apply Hno. rewrite columns_drop_duplicates. simpl.
      apply elem_of_app. right. by apply list_elem_of_filter.
  - split; [rewrite <- !app_assoc; by eexists|]. done.
Qed.

(** X13. With the scraper of the repository, after an invocation that
    returned [True] on a document with at least one record, a further
    invocation for the same date, at any later reading of the clock, returns
    [False] without a fetch or a write. *)
Theorem second_run_skips
    {float : Type} `{EqDecision float}
    (cal : BRCal.t)
    (download : Timestamp → res (list AnbimaIRTSScraper.PARAMETRO))
    (float_of_string : string → option float)
    (date : Timestamp) (w w' : World float) (clock : Timestamp) :
  let self := {| calendar := cal;
                 scraper_scrape := AnbimaIRTSScraper.scrape download float_of_string |} in
  scrape_and_update self date w = (Ok true, w') →
  (∃ p xml, download date = Ok (p :: xml)) →
  ∃ evs, scrape_and_update self date (at_clock clock w')
         = (Ok false, add_events (at_clock clock w') evs) ∧
         Forall quiet evs.
Proof.
  intros self Hrun (p & xml & Hdl).
  destruct (success_inversion _ _ _ _ Hrun) as (new_data & df & Hfetch & _).
  apply (skip_after_success self date w w' new_data clock Hrun Hfetch).
  simpl in Hfetch. pose proof Hfetch as Hframe.
  apply scrape_frame in Hframe. destruct Hframe as (Hdates & _ & _).
  unfold AnbimaIRTSScraper.scrape in Hfetch. rewrite Hdl in Hfetch. simpl in Hfetch.
  destruct (AnbimaIRTSScraper.parse_params float_of_string (p :: xml) date)
    as [records|e] eqn:Hp; [|done].
  apply parse_params_dates in Hp. destruct Hp as [Hlen _].
  simpl in Hfetch. injection Hfetch as <-.
  destruct records as [|r records]; [done|]. simpl in *.
  apply Forall_cons in Hdates. destruct Hdates as [Hr _]. rewrite Hr.
  apply list_elem_of_here.
Qed.

(** X14. When the stored frame already holds the business day before
    today, the script makes no fetch and no write, and still ends with the
    line that the data was scraped and updated. *)
Theorem main_reports_success_on_skip
    {float : Type} `{EqDecision float}
    (brcal : BRCal.t) (AIRTSM : AnbimaIRTSManager.t float) (w : World float)
    (df : DataFrame float) (date : Timestamp) :
  feather w = Some df →
  empty df = false →
  "date" ∈ columns df →
  BRCal.previous_business_day brcal (BRCal.today (now w)) = Ok date →
  Some date ∈ map row_date (rows df) →
  ∃ evs, auto_scrape.main brcal AIRTSM w
         = (Ok auto_scrape.SuccessfullyScraped, add_events w evs) ∧
         Forall quiet evs.
Proof.
  intros Hf Hemp Hcol Hdate Hin.
  pose proof (already_present_intro _ df Hemp Hcol Hin) as Hp.
  destruct (skip_when_present AIRTSM _ w df Hf Hp) as (evs & Hrun & Hq).
  exists evs. split; [|done].
  unfold auto_scrape.main, auto_scrape.truth, auto_scrape.call, mbind, M_bind, get_today.
  by rewrite Hdate, Hrun.
Qed.

Section ManagerWitnesses.

Import Examples MoreExamples.

Lemma validate_date_window_witness :
  (_validate_date (manager download_document) mon_2024_01_01
     (fresh_world mon_2024_01_08_10h)).1
  = Ok (5 <? 5)%nat.
Proof.
  apply (validate_date_window (manager download_document)
           (fresh_world mon_2024_01_08_10h) 5 mon_2024_01_01).
  - vm_compute. reflexivity.
  - vm_compute. reflexivity.
Defined.

Lemma validate_date_previous_business_day_witness :
  _validate_date (manager download_document) fri_2024_01_05
    (fresh_world mon_2024_01_08_10h)
  = (Ok true, fresh_world mon_2024_01_08_10h).
Proof.
  apply (validate_date_previous_business_day
           (BRCalInit.__init__ BRCalInit.RequestFailure) (manager download_document)
           (fresh_world mon_2024_01_08_10h) fri_2024_01_05).
  - reflexivity.
  - vm_compute. reflexivity.
Defined.

Lemma scrape_and_update_raises_only_witness :
  scraper_scrape (manager download_nothing) mon_2024_01_08 = Raise (KeyError "date") ∨
  (KeyError "date" = KeyError "date" ∧
   (∃ new_data, scraper_scrape (manager download_nothing) mon_2024_01_08 = Ok new_data ∧
      ("date" ∉ columns new_data) ∧
      ("date" ∉ columns (stored (fresh_world mon_2024_01_08_10h))))).
Proof.
  apply (scrape_and_update_raises_only (manager download_nothing) mon_2024_01_08
           (fresh_world mon_2024_01_08_10h) (KeyError "date")).
  vm_compute. reflexivity.
Defined.

Lemma merge_keeps_every_row_witness :
  ∃ df, feather world_with_friday = Some df ∧
    (∀ r, r ∈ rows df ↔
          r ∈ rows (stored (fresh_world mon_2024_01_08_10h)) ∨
          r ∈ rows (DataFrame_of_records
                      (default [] (match AnbimaIRTSScraper.parse_params
                                           float_of_string document fri_2024_01_05
                                   with Ok l => Some l | Raise _ => None end)))) ∧
    columns df = columns (concat (stored (fresh_world mon_2024_01_08_10h))
                   (DataFrame_of_records
                      (default [] (match AnbimaIRTSScraper.parse_params
                                           float_of_string document fri_2024_01_05
                                   with Ok l => Some l | Raise _ => None end)))) ∧
    (nrows df <= nrows (stored (fresh_world mon_2024_01_08_10h))
                 + nrows (DataFrame_of_records
                      (default [] (match AnbimaIRTSScraper.parse_params
                                           float_of_string document fri_2024_01_05
                                   with Ok l => Some l | Raise _ => None end))))%nat.
Proof.
  apply (merge_keeps_every_row (manager download_document) fri_2024_01_05
           (fresh_world mon_2024_01_08_10h) world_with_friday).
  - vm_compute. reflexivity.
  - vm_compute. reflexivity.
Defined.

Lemma schema_drift_proceeds_witness :
  let run := scrape_and_update (manager download_document) fri_2024_01_05
               world_without_date_column in
  (∃ evs, trace run.2
          = trace world_without_date_column
            ++ [ReadFeather; Log INFO (ExistingLoaded (nrows frame_without_date));
                Log WARNING NoDateColumn;
                Log INFO (StartingScrape fri_2024_01_05); Scrape fri_2024_01_05]
            ++ evs) ∧
  (∀ new_data, scraper_scrape (manager download_document) fri_2024_01_05 = Ok new_data →
     "date" ∈ columns new_data → run.1 = Ok true).
Proof.
  apply (schema_drift_proceeds (manager download_document) fri_2024_01_05
           world_without_date_column frame_without_date).
  - vm_compute. reflexivity.
  - reflexivity.
  - reflexivity.
  - intros Hin. simpl in Hin. listed.
Defined.

Lemma second_run_skips_witness :
  ∃ evs, scrape_and_update (manager download_document) fri_2024_01_05
           (at_clock tue_2024_01_09 world_with_friday)
         = (Ok false, add_events (at_clock tue_2024_01_09 world_with_friday) evs) ∧
         Forall quiet evs.
Proof.
  apply (second_run_skips no_holidays download_document float_of_string
           fri_2024_01_05 (fresh_world mon_2024_01_08_10h) world_with_friday
           tue_2024_01_09).
  - vm_compute. reflexivity.
  - eexists _, _. reflexivity.
Defined.

Lemma main_reports_success_on_skip_witness :
  ∃ evs, auto_scrape.main no_holidays (manager download_document) world_with_friday
         = (Ok auto_scrape.SuccessfullyScraped, add_events world_with_friday evs) ∧
         Forall quiet evs.
Proof.
  apply (main_reports_success_on_skip no_holidays (manager download_document)
           world_with_friday (default DataFrame_new (feather world_with_friday))
           fri_2024_01_05).
  - vm_compute. reflexivity.
  - vm_compute. reflexivity.
  - vm_compute. apply list_elem_of_here.
  - vm_compute. reflexivity.
  - vm_compute. apply list_elem_of_here.
Defined.

End ManagerWitnesses.

(** ** Further properties of the scraper *)

(** X15. When [parse_params] returns, it returns one record per
    [PARAMETRO] element, in the order of the document; each record has the
    requested date, the renamed group as its type, and in each numeric cell
    what [convert] makes of the attribute. *)
Theorem parse_params_records
    {float : Type} (float_of_string : string → option float)
    (xml_content : list AnbimaIRTSScraper.PARAMETRO) (date : Timestamp)
    (records : list (Row float)) :
  AnbimaIRTSScraper.parse_params float_of_string xml_content date = Ok records →
  Forall2 (λ p r,
    row_date r = Some date ∧
    row_type r = AnbimaIRTSScraper.rename_type (AnbimaIRTSScraper.Grupo p) ∧
    AnbimaIRTSScraper.convert float_of_string (AnbimaIRTSScraper.B1 p) = Ok (b1 r) ∧
    AnbimaIRTSScraper.convert float_of_string (AnbimaIRTSScraper.B2 p) = Ok (b2 r) ∧
    AnbimaIRTSScraper.convert float_of_string (AnbimaIRTSScraper.B3 p) = Ok (b3 r) ∧
    AnbimaIRTSScraper.convert float_of_string (AnbimaIRTSScraper.B4 p) = Ok (b4 r) ∧
    AnbimaIRTSScraper.convert float_of_string (AnbimaIRTSScraper.L1 p) = Ok (l1 r) ∧
    AnbimaIRTSScraper.convert float_of_string (AnbimaIRTSScraper.L2 p) = Ok (l2 r))
    xml_content records.
Proof.
  unfold AnbimaIRTSScraper.parse_params. intros Hmap%res_map_Ok.
  induction Hmap as [|p r xml rs Hp _ IH]; constructor; [|done].
  by apply parse_param_fields.
Qed.

(** X16. One number that [float] refuses makes the whole parse fail: if some
    element of the document has a numeric attribute that is not empty and
    that [float] does not take, [parse_params] raises [ValueError] and
    returns no record at all. *)
Theorem parse_params_refuses_bad_number
    {float : Type} (float_of_string : string → option float)
    (xml_content : list AnbimaIRTSScraper.PARAMETRO) (date : Timestamp)
    (parametro : AnbimaIRTSScraper.PARAMETRO)
    (attr : AnbimaIRTSScraper.PARAMETRO → option string) (s : string) :
  parametro ∈ xml_content →
  attr ∈ numeric_attributes →
  attr parametro = Some s →
  s ≠ EmptyString →
  float_of_string (AnbimaIRTSScraper.replace_comma s) = None →
  ∃ text, AnbimaIRTSScraper.parse_params (float:=float) float_of_string xml_content date
          = Raise (ValueError text).
Proof.
  intros Hin Hattr Hs Hne Hf.
  destruct (parse_param_refused float_of_string date parametro attr s Hattr Hs Hne Hf)
    as [text Hp].
  destruct (res_map_raises (AnbimaIRTSScraper.parse_param float_of_string date)
              xml_content parametro (λ e, ∃ t, e = ValueError t)) as (e & He & [t ->]).
  - intros y e. apply parse_param_raises.
  - done.
  - by eexists.
  - by exists t.
Qed.

(** X17. [replace_comma] keeps the length of the text, leaves no comma in
    it, and changes nothing when applied again. *)
Theorem replace_comma_properties (s : string) :
  String.length (AnbimaIRTSScraper.replace_comma s) = String.length s ∧
  (","%char ∉ String.list_ascii_of_string (AnbimaIRTSScraper.replace_comma s)) ∧
  AnbimaIRTSScraper.replace_comma (AnbimaIRTSScraper.replace_comma s)
  = AnbimaIRTSScraper.replace_comma s.
Proof.
  induction s as [|c s (Hlen & Hno & Hidem)]; simpl.
  - repeat split; try done. apply not_elem_of_nil.
  - repeat split.
    + by rewrite Hlen.
    + intros Hin. apply elem_of_cons in Hin. destruct Hin as [Hc|Hin]; [|done].
      destruct (bool_decide_reflect (c = ","%char)) as [->|Hne]; [done|].
      by apply Hne.
    + rewrite Hidem. f_equal.
      destruct (bool_decide_reflect (c = ","%char)) as [->|Hne]; [done|].
      by rewrite bool_decide_eq_false_2.
Qed.

(** X18. The renaming of the groups maps [PREFIXADOS] to [pre] and [IPCA] to
    [ipca], passes every other group through as it is, keeps a missing group
    missing, and changes nothing when applied again. *)
Theorem rename_type_properties (original_type : option string) :
  AnbimaIRTSScraper.rename_type (Some "PREFIXADOS") = Some "pre" ∧
  AnbimaIRTSScraper.rename_type (Some "IPCA") = Some "ipca" ∧
  (original_type ≠ Some "PREFIXADOS" → original_type ≠ Some "IPCA" →
   AnbimaIRTSScraper.rename_type original_type = original_type) ∧
  (AnbimaIRTSScraper.rename_type original_type = None ↔ original_type = None) ∧
  AnbimaIRTSScraper.rename_type (AnbimaIRTSScraper.rename_type original_type)
  = AnbimaIRTSScraper.rename_type original_type.
Proof.
  assert (∀ g, g ≠ "PREFIXADOS" → g ≠ "IPCA" →
            AnbimaIRTSScraper.type_mapping !! g = None) as Hother.
  { intros g H1 H2. unfold AnbimaIRTSScraper.type_mapping.
    rewrite lookup_insert_ne by done. by rewrite lookup_singleton_ne. }
  split; [reflexivity|]. split; [reflexivity|]. split; [|split].
  - intros H1 H2. destruct original_type as [g|]; [|done]. simpl.
    rewrite Hother by congruence. done.
  - destruct original_type; simpl; split; done.
  - destruct original_type as [g|]; [|done]. simpl. f_equal.
    destruct (decide (g = "PREFIXADOS")) as [->|H1]; [reflexivity|].
    destruct (decide (g = "IPCA")) as [->|H2]; [reflexivity|].
    rewrite (Hother g) by done. simpl. by rewrite Hother.
Qed.

(** X19. When [scrape] returns a frame, the download returned a document;
    the frame has one row per element of it, every row has the requested
    date, and the columns are those of the schema, or none at all when the
    document has no element.  When the download raises, [scrape] raises the
    same. *)
Theorem scrape_result
    {float : Type}
    (download : Timestamp → res (list AnbimaIRTSScraper.PARAMETRO))
    (float_of_string : string → option float) (date : Timestamp) :
  (∀ df : DataFrame float,
     AnbimaIRTSScraper.scrape download float_of_string date = Ok df →
     ∃ xml_content, download date = Ok xml_content ∧
       nrows df = length xml_content ∧
       Forall (λ r, row_date r = Some date) (rows df) ∧
       columns df = match xml_content with [] => [] | _ :: _ => schema end) ∧
  (∀ e, download date = Raise e →
     AnbimaIRTSScraper.scrape (float:=float) download float_of_string date = Raise e).
Proof.
  split.
  - intros df. unfold AnbimaIRTSScraper.scrape.
    destruct (download date) as [xml|e]; [|done]. simpl.
    destruct (AnbimaIRTSScraper.parse_params float_of_string xml date)
      as [records|e] eqn:Hp; [|done]. simpl.
    intros [= <-]. apply parse_params_dates in Hp. destruct Hp as [Hlen Hall].
    exists xml. split; [done|].
    destruct records as [|r records], xml as [|p xml]; simpl in *; try done.
  - intros e He. unfold AnbimaIRTSScraper.scrape. by rewrite He.
Qed.

(** ** Properties of the download *)

(** X20. [download_xml] returns the content of the first attempt that is
    answered, if the attempts before it all failed with a request error and
    it is among the five: it has then posted once per attempt and slept one
    second after each failed one. *)
Theorem download_xml_first_success
    {content err : Type} (post : nat → Download.attempt_result content err)
    (i : nat) (c : content) :
  (i < 5)%nat →
  post i = Download.Responded c →
  (∀ j, (j < i)%nat → ∃ e, post j = Download.RequestFailed e) →
  Download.download_xml post
  = (Download.Returned c,
     flat_map (λ j, [Download.Post j; Download.Sleep 1]) (seq 0 i)
     ++ [Download.Post i]).
Proof.
  intros Hi Hpost Hfail. unfold Download.download_xml, Download.max_retries.
  rewrite (retry_loop_decided post 5 0 5 i) by (try lia; intros j Hj; apply Hfail; lia).
  simpl. by rewrite Hpost.
Qed.

(** X21. When all five attempts fail with a request error, [download_xml]
    raises the error of the fifth, after five posts and four sleeps of one
    second: it does not sleep after the last failure. *)
Theorem download_xml_exhausted
    {content err : Type} (post : nat → Download.attempt_result content err)
    (e : err) :
  (∀ j, (j < 4)%nat → ∃ e', post j = Download.RequestFailed e') →
  post 4%nat = Download.RequestFailed e →
  Download.download_xml post
  = (Download.Raised e,
     flat_map (λ j, [Download.Post j; Download.Sleep 1]) (seq 0 4)
     ++ [Download.Post 4]).
Proof.
  intros Hfail Hlast. unfold Download.download_xml, Download.max_retries.
  rewrite (retry_loop_decided post 5 0 5 4) by (try lia; intros j Hj; apply Hfail; lia).
  simpl. by rewrite Hlast.
Qed.

(** X22. An error that is not a request error ends [download_xml] at once:
    it is raised from the attempt it occurs in, with no sleep and no further
    post after it. *)
Theorem download_xml_other_failure
    {content err : Type} (post : nat → Download.attempt_result content err)
    (i : nat) (e : err) :
  (i < 5)%nat →
  post i = Download.OtherFailure e →
  (∀ j, (j < i)%nat → ∃ e', post j = Download.RequestFailed e') →
  Download.download_xml post
  = (Download.Raised e,
     flat_map (λ j, [Download.Post j; Download.Sleep 1]) (seq 0 i)
     ++ [Download.Post i]).
Proof.
  intros Hi Hpost Hfail. unfold Download.download_xml, Download.max_retries.
  rewrite (retry_loop_decided post 5 0 5 i) by (try lia; intros j Hj; apply Hfail; lia).
  simpl. by rewrite Hpost.
Qed.

(** X23. Whatever the answers, [download_xml] returns a content or raises
    (it never falls off the loop), posts at least once and at most five
    times, sleeps once less than it posts, and each sleep is of one second. *)
Theorem download_xml_bounds
    {content err : Type} (post : nat → Download.attempt_result content err) :
  let run := Download.download_xml post in
  run.1 ≠ Download.ReturnedNone ∧
  (1 <= length (List.filter Download.is_post run.2) <= 5)%nat ∧
  (length (List.filter Download.is_sleep run.2) + 1
   = length (List.filter Download.is_post run.2))%nat ∧
  (∀ s, Download.Sleep s ∈ run.2 → s = 1%nat).
Proof.
  unfold Download.download_xml, Download.max_retries.
  apply (retry_loop_counts post 5 0 5); lia.
Qed.

(** ** Properties of the holiday download *)

(** X24. A date in the column [Data] of a row of the sheet that has no
    missing cell is a holiday of the calendar built from the sheet: the
    offset does not accept any instant of that day, and [is_business_day]
    is false on the date when it carries no time of day. *)
Theorem sheet_dates_are_holidays
    (sheet : list BRCalInit.sheet_row) (r : BRCalInit.sheet_row) (h : Timestamp) :
  r ∈ sheet →
  BRCalInit.complete r = true →
  BRCalInit.Data r = Some h →
  h ∈ BRCal._holidays (BRCalInit.__init__ (BRCalInit.Sheet sheet)) ∧
  (∀ t, day_number t = day_number h →
     is_on_offset (BRCal._custom_bday (BRCalInit.__init__ (BRCalInit.Sheet sheet))) t
     = false) ∧
  (time_of_day h = 0 →
   BRCal.is_business_day (BRCalInit.__init__ (BRCalInit.Sheet sheet)) h = false).
Proof.
  intros Hin Hc Hd.
  assert (h ∈ BRCal._holidays (BRCalInit.__init__ (BRCalInit.Sheet sheet))) as Hh.
  { simpl. apply elem_of_list_to_set. unfold BRCalInit.dropna_Data.
    apply list_elem_of_omap. exists r. split; [|done].
    apply list_elem_of_In, filter_In. split; [by apply list_elem_of_In | done]. }
  split; [done|]. split.
  - intros t Ht. unfold is_on_offset, is_busday.
    rewrite bool_decide_eq_false_2; [apply andb_false_r|].
    intros Hno. apply Hno. simpl. apply elem_of_map. exists h. by split.
  - intros Htod. unfold BRCal.is_business_day.
    assert (normalize h = h) as -> by (rewrite normalize_spec; lia).
    rewrite bool_decide_eq_false_2; [apply andb_false_r|].
    intros Hno. by apply Hno.
Qed.

Section ScraperWitnesses.

Import Examples MoreExamples.

Lemma parse_params_records_witness :
  ∃ records : list (Row string),
  Forall2 (λ p r,
    row_date r = Some fri_2024_01_05 ∧
    row_type r = AnbimaIRTSScraper.rename_type (AnbimaIRTSScraper.Grupo p) ∧
    AnbimaIRTSScraper.convert float_of_string (AnbimaIRTSScraper.B1 p) = Ok (b1 r) ∧
    AnbimaIRTSScraper.convert float_of_string (AnbimaIRTSScraper.B2 p) = Ok (b2 r) ∧
    AnbimaIRTSScraper.convert float_of_string (AnbimaIRTSScraper.B3 p) = Ok (b3 r) ∧
    AnbimaIRTSScraper.convert float_of_string (AnbimaIRTSScraper.B4 p) = Ok (b4 r) ∧
    AnbimaIRTSScraper.convert float_of_string (AnbimaIRTSScraper.L1 p) = Ok (l1 r) ∧
    AnbimaIRTSScraper.convert float_of_string (AnbimaIRTSScraper.L2 p) = Ok (l2 r))
    document records.
Proof.
  eexists.
  apply (parse_params_records float_of_string document fri_2024_01_05).
  vm_compute. reflexivity.
Defined.

Lemma parse_params_refuses_bad_number_witness :
  ∃ text, AnbimaIRTSScraper.parse_params strict_float_of_string bad_document
            fri_2024_01_05
          = Raise (ValueError text).
Proof.
  apply (parse_params_refuses_bad_number strict_float_of_string bad_document
           fri_2024_01_05
           {| AnbimaIRTSScraper.Grupo := Some "PREFIXADOS";
              AnbimaIRTSScraper.B1 := Some "0,1041";
              AnbimaIRTSScraper.B2 := Some "n/d";
              AnbimaIRTSScraper.B3 := Some "";
              AnbimaIRTSScraper.B4 := None;
              AnbimaIRTSScraper.L1 := Some "1,7";
              AnbimaIRTSScraper.L2 := Some "0,2" |}
           AnbimaIRTSScraper.B2 "n/d").
  - apply list_elem_of_here.
  - apply list_elem_of_further, list_elem_of_here.
  - reflexivity.
  - discriminate.
  - vm_compute. reflexivity.
Defined.

Lemma download_xml_first_success_witness :
  Download.download_xml flaky_post
  = (Download.Returned "<xml/>",
     flat_map (λ j, [Download.Post j; Download.Sleep 1]) (seq 0 3)
     ++ [Download.Post 3]).
Proof.
  apply (download_xml_first_success flaky_post 3 "<xml/>").
  - lia.
  - reflexivity.
  - intros j Hj. exists j. unfold flaky_post.
    destruct (Nat.ltb_spec j 3); [reflexivity | lia].
Defined.

Lemma download_xml_exhausted_witness :
  Download.download_xml dead_post
  = (Download.Raised 4%nat,
     flat_map (λ j, [Download.Post j; Download.Sleep 1]) (seq 0 4)
     ++ [Download.Post 4]).
Proof.
  apply (download_xml_exhausted dead_post 4%nat).
  - intros j Hj. exists j. reflexivity.
  - reflexivity.
Defined.

Lemma download_xml_other_failure_witness :
  Download.download_xml broken_post
  = (Download.Raised 1%nat,
     flat_map (λ j, [Download.Post j; Download.Sleep 1]) (seq 0 1)
     ++ [Download.Post 1]).
Proof.
  apply (download_xml_other_failure broken_post 1 1%nat).
  - lia.
  - reflexivity.
  - intros j Hj. exists j. unfold broken_post.
    destruct (Nat.ltb_spec j 1); [reflexivity | lia].
Defined.

Lemma sheet_dates_are_holidays_witness :
  mon_2024_01_01
    ∈ BRCal._holidays (BRCalInit.__init__ (BRCalInit.Sheet holiday_sheet)) ∧
  (∀ t, day_number t = day_number mon_2024_01_01 →
     is_on_offset
       (BRCal._custom_bday (BRCalInit.__init__ (BRCalInit.Sheet holiday_sheet))) t
     = false) ∧
  (time_of_day mon_2024_01_01 = 0 →
   BRCal.is_business_day (BRCalInit.__init__ (BRCalInit.Sheet holiday_sheet))
     mon_2024_01_01 = false).
Proof.
  apply (sheet_dates_are_holidays holiday_sheet
           {| BRCalInit.Data := Some mon_2024_01_01;
              BRCalInit.other_cells :=
                [Some "segunda-feira"; Some "Confraternizacao Universal"] |}
           mon_2024_01_01).
  - apply list_elem_of_here.
  - reflexivity.
  - reflexivity.
Defined.

End ScraperWitnesses.
